(** * libdnn: the training driver [dnn-train.cpp]

    A shallow embedding of [src/dnn-train.cpp]: the early-stopping test
    [isEoutStopDecrease], the epoch loop of [dnn_train], the evaluation pass
    [dnn_predict] and the set-up done by [main].

    Conventions.
    - [size_t] is a [Z] in [[0, 2^64)]; subtraction and addition wrap.
    - [std::vector<size_t>] is a [list Z]; [operator[]] outside the bounds is
      undefined behaviour in C++ and is [None] here.
    - [float] is IEEE binary32, taken from the Standard Library's [SpecFloat]
      (precision 24, maximal exponent 128, round to nearest even).
    - The classes declared in [dnn.h], [dnn-utility.h], [batch.h] and
      [cmdparser.h] are not part of this file; their operations are the fields
      of the class [Collaborators]. *)

From Stdlib Require Import Ascii String ZArith List Lia Bool.
From Stdlib Require Import Floats.SpecFloat.
Import ListNotations.
Local Open Scope Z_scope.

(** ** [size_t] *)

Module SizeT.

Definition modulus : Z := 2 ^ 64.

Definition wrap (z : Z) : Z := z mod modulus.

Definition in_range (z : Z) : Prop := 0 <= z < modulus.

Definition add (a b : Z) : Z := wrap (a + b).

Definition sub (a b : Z) : Z := wrap (a - b).

(** [++i] *)
Definition incr (a : Z) : Z := add a 1.

End SizeT.

(** ** [std::vector<size_t>] *)

Module Vec.

Definition size (v : list Z) : Z := Z.of_nat (List.length v).

(** [v[i]]: [None] is the out-of-bounds access. *)
Definition at_ (v : list Z) (i : Z) : option Z :=
  if (0 <=? i) && (i <? size v) then nth_error v (Z.to_nat i) else None.

Definition push_back (v : list Z) (x : Z) : list Z := v ++ [x].

(** [v.back()]: undefined on an empty vector. *)
Definition back (v : list Z) : option Z := at_ v (size v - 1).

End Vec.

(** ** The stopping policy, lines 204-212

    [for (size_t i=0; i<nNonIncEpoch; ++i)
       if (epoch - i > 0 && Eout[epoch] > Eout[epoch - i]) return false;
     return true;]

    [todo] counts the iterations that remain, [i] is the loop variable.  The
    second conjunct is evaluated only when the first holds ([&&] is
    short-circuit); it subscripts [Eout] twice. *)

Fixpoint isEoutStopDecrease_from (Eout : list Z) (epoch : Z) (todo : nat) (i : Z)
  : option bool :=
  match todo with
  | O => Some true
  | S todo' =>
      if 0 <? SizeT.sub epoch i then
        match Vec.at_ Eout epoch, Vec.at_ Eout (SizeT.sub epoch i) with
        | Some cur, Some old =>
            if old <? cur then Some false
            else isEoutStopDecrease_from Eout epoch todo' (SizeT.incr i)
        | _, _ => None
        end
      else isEoutStopDecrease_from Eout epoch todo' (SizeT.incr i)
  end.

Definition isEoutStopDecrease (Eout : list Z) (epoch nNonIncEpoch : Z) : option bool :=
  isEoutStopDecrease_from Eout epoch (Z.to_nat nNonIncEpoch) 0.

(** The subscripts [epoch - i] that the loop hands to [Eout[...]], in the order
    it does so, up to the point where it returns or leaves the vector. *)
Fixpoint isEoutStopDecrease_subscripts (Eout : list Z) (epoch : Z) (todo : nat) (i : Z)
  : list Z :=
  match todo with
  | O => []
  | S todo' =>
      if 0 <? SizeT.sub epoch i then
        SizeT.sub epoch i ::
        match Vec.at_ Eout epoch, Vec.at_ Eout (SizeT.sub epoch i) with
        | Some cur, Some old =>
            if old <? cur then []
            else isEoutStopDecrease_subscripts Eout epoch todo' (SizeT.incr i)
        | _, _ => []
        end
      else isEoutStopDecrease_subscripts Eout epoch todo' (SizeT.incr i)
  end.

(** Both epochs are recorded and the count of [epoch] does not exceed that of
    [earlier]: [Eout[epoch] <= Eout[earlier]]. *)
Definition no_worse_than (Eout : list Z) (epoch earlier : Z) : Prop :=
  exists cur old,
    Vec.at_ Eout epoch = Some cur /\ Vec.at_ Eout earlier = Some old /\ cur <= old.

(** The contract of section 4.4 of the specification, in its own words, over
    the integers: every offset [i] of the window that points at an epoch after
    epoch 0 sees a count that is at least the current one. *)
Definition spec_window_non_increasing (Eout : list Z) (epoch nNonIncEpoch : Z) : Prop :=
  forall i, 0 <= i < nNonIncEpoch -> epoch - i > 0 -> no_worse_than Eout epoch (epoch - i).

(** ** [float] *)

Module F32.

Definition prec : Z := 24.
Definition emax : Z := 128.

Definition t : Type := spec_float.

(** Conversion of an integer to [float], as in [(float) Ein] and in the
    promotion of a [size_t] or [int] operand of a [float] operator. *)
Definition of_Z (z : Z) : t := binary_normalize prec emax z 0 false.

Definition zero : t := of_Z 0.
Definition one : t := of_Z 1.

Definition sub : t -> t -> t := SFsub prec emax.
Definition mul : t -> t -> t := SFmul prec emax.
Definition div : t -> t -> t := SFdiv prec emax.

(** [a < b]; false when either side is a NaN. *)
Definition ltb : t -> t -> bool := SFltb.

End F32.

(** ** Declarations taken from the headers *)

(** [struct Config] of [dnn.h], with the fields that the driver reads or
    writes; the two counters are [size_t], as the variables they are copied
    to and from. *)
Record Config : Type := mkConfig {
  variance : F32.t;
  learningRate : F32.t;
  minValidAccuracy : F32.t;
  maxEpoch : Z;
  nNonIncEpoch : Z
}.

(** Modelled from the spec: the enumeration [ERROR_MEASURE] is declared in
    [dnn-utility.h], which is not among the sources.  The driver names
    [CROSS_ENTROPY]; the specification (sections 4.2 and 6) adds the
    mean-squared error used for regression. *)
Inductive ERROR_MEASURE : Type :=
| MEAN_SQUARED_ERROR
| CROSS_ENTROPY.

(** The command line as [CmdParser] presents it once the options of lines
    32-60 are registered: [cmd.isOptionLegal()], [cmd[k]] for the positional
    arguments and [cmd["--name"]] for the options (the value given, or the
    registered default). *)
Record CmdParser : Type := mkCmdParser {
  isOptionLegal : bool;
  positional : Z -> string;
  opt : string -> string
}.

(** The operations of the classes [DNN], [DataSet], [Batches], [mat] and of
    the argument conversions of [CmdParser], none of which is defined in
    [dnn-train.cpp].  A method that takes its object by non-const reference
    returns the new object. *)
Class Collaborators : Type := {
  DNN : Type;
  DataSet : Type;
  mat : Type;
  Batch : Type;
  (* dnn.h *)
  Config_default : Config;                        (* [Config config;] *)
  DNN_load : string -> DNN;                       (* [DNN dnn(model_in);] *)
  setConfig : DNN -> Config -> DNN;
  getConfig : DNN -> Config;
  feedForward_into : DNN -> mat -> DNN * mat;     (* [dnn.feedForward(fout, x)] *)
  feedForward : DNN -> mat -> mat;                (* [dnn.feedForward(x)], const *)
  backPropagate : DNN -> mat -> mat -> mat -> F32.t -> DNN;
  adjustLearningRate : DNN -> F32.t -> DNN;
  (* dnn-utility.h *)
  getError : mat -> mat -> ERROR_MEASURE -> mat;
  zeroOneError : mat -> mat -> ERROR_MEASURE -> Z;
  (* batch.h *)
  Batches : Z -> Z -> list Batch;
  (* dataset *)
  DataSet_load : string -> Z -> Z -> DataSet;     (* [DataSet data(fn, dim, base);] *)
  setNormType : DataSet -> Z -> DataSet;
  DataSet_size : DataSet -> Z;
  DataSet_at : DataSet -> Batch -> mat * mat;     (* [data[itr]]: [(x, y)] *)
  DataSet_split : DataSet -> Z -> DataSet * DataSet;
  (* cmdparser.h: conversion of an argument *)
  arg_size_t : string -> Z;
  arg_int : string -> Z;
  arg_float : string -> F32.t
}.

(** ** What the program does to the outside, in order *)

Section Driver.

Context {C : Collaborators}.

Inductive event : Type :=
| EvSetCacheSize (mb : Z)
| EvShowSummary (data : DataSet)
| EvConfigPrint (c : Config)
| EvTrainingBanner                              (* "Training...", table header *)
| EvGetError (m : ERROR_MEASURE)
| EvBackPropagate (error x fout : mat) (lr : F32.t)
| EvZeroOneError (m : ERROR_MEASURE)
| EvMarker                                      (* [cout << "."] *)
| EvRow (epoch : Z) (trainPct : F32.t) (trainCorrect : Z)
        (validPct : F32.t) (validCorrect : Z)
| EvStopPolicy (Eout : list Z) (epoch nNonIncEpoch : Z)
| EvAdjustLearningRate (trainAcc : F32.t)
| EvEpochsInTotal (epoch : Z)
| EvElapsed
| EvShowAccuracy (nError nTotal : Z)
| EvSave (dnn : DNN) (model_out : string).

(** The epoch summary row, the call of the stopping policy and the call of
    the learning-rate hook. *)
Definition is_row_or_decision (e : event) : bool :=
  match e with
  | EvRow _ _ _ _ _ | EvStopPolicy _ _ _ | EvAdjustLearningRate _ => true
  | _ => false
  end.

Definition is_backPropagate (e : event) : bool :=
  match e with EvBackPropagate _ _ _ _ => true | _ => false end.

(** A call of the error evaluator or of the update step, with the error
    measure and the learning rate it is given. *)
Definition training_event (lr : F32.t) (m : ERROR_MEASURE) (e : event) : Prop :=
  match e with
  | EvGetError m' | EvZeroOneError m' => m' = m
  | EvBackPropagate _ _ _ lr' => lr' = lr
  | _ => False
  end.

(** What the controller emits once an epoch is evaluated. *)
Definition report_event (e : event) : Prop :=
  match e with
  | EvMarker | EvRow _ _ _ _ _ | EvStopPolicy _ _ _ | EvAdjustLearningRate _ => True
  | _ => False
  end.

Definition loop_event (lr : F32.t) (m : ERROR_MEASURE) (e : event) : Prop :=
  training_event lr m e \/ report_event e.

(** The patience windows that the calls of the stopping policy in a trace were
    given. *)
Definition patience_windows (out : list event) : list Z :=
  flat_map (fun e => match e with EvStopPolicy _ _ n => [n] | _ => [] end) out.

(** Every update step in a trace is given the rate [lr]. *)
Definition rate_is (lr : F32.t) (e : event) : Prop :=
  match e with EvBackPropagate _ _ _ lr' => lr' = lr | _ => True end.

(** Every use of an error measure in a trace names [m]. *)
Definition measure_is (m : ERROR_MEASURE) (e : event) : Prop :=
  match e with EvGetError m' | EvZeroOneError m' => m' = m | _ => True end.

(** ** [dnn_predict], lines 191-202 *)

Definition dnn_predict_batch (dnn : DNN) (data : DataSet) (errorMeasure : ERROR_MEASURE)
  (acc : Z * list event) (itr : Batch) : Z * list event :=
  let d := DataSet_at data itr in
  let prob := feedForward dnn (fst d) in
  (SizeT.add (fst acc) (zeroOneError prob (snd d) errorMeasure),
   snd acc ++ [EvZeroOneError errorMeasure]).

Definition dnn_predict (dnn : DNN) (data : DataSet) (errorMeasure : ERROR_MEASURE)
  : Z * list event :=
  fold_left (dnn_predict_batch dnn data errorMeasure)
            (Batches 2048 (DataSet_size data)) (0, []).

(** ** [dnn_train], lines 118-189 *)

Record loop_state : Type := mkLoopState {
  st_dnn : DNN;
  st_Ein : Z;
  st_Eout : list Z;
  st_epoch : Z;
  st_out : list event
}.

(** How one pass through the loop body ends. *)
Inductive flow : Type :=
| Next           (* the end of the body or [continue]: on to [++epoch] *)
| Break          (* line 176 *)
| Undefined.     (* a subscript outside [Eout] *)

(** How [dnn_train] leaves the epoch loop. *)
Inductive loop_exit : Type :=
| EXHAUSTED      (* [epoch < MAX_EPOCH] is false *)
| CONVERGED      (* [break] *)
| UNDEFINED.

Section EpochLoop.

Variables (train valid : DataSet) (batchSize : Z) (errorMeasure : ERROR_MEASURE).
Variables (lr : F32.t) (nTrain nValid : Z).

(** Lines 151-157: one mini-batch. *)
Definition train_batch (acc : DNN * list event) (itr : Batch) : DNN * list event :=
  let data := DataSet_at train itr in
  let ff := feedForward_into (fst acc) (fst data) in
  let fout := snd ff in
  let error := getError (snd data) fout errorMeasure in
  (backPropagate (fst ff) error (fst data) fout lr,
   snd acc ++ [EvGetError errorMeasure; EvBackPropagate error (fst data) fout lr]).

(** Lines 147-158: all mini-batches of an epoch. *)
Definition train_batches (dnn : DNN) (out : list event) : DNN * list event :=
  fold_left train_batch (Batches batchSize nTrain) (dnn, out).

(** Line 163. *)
Definition accuracy (nError nTotal : Z) : F32.t :=
  F32.sub F32.one (F32.div (F32.of_Z nError) (F32.of_Z nTotal)).

Definition add_out (st : loop_state) (evs : list event) : loop_state :=
  mkLoopState (st_dnn st) (st_Ein st) (st_Eout st) (st_epoch st) (st_out st ++ evs).

(** Lines 160-161: the state after the batches and the two evaluation
    passes, just before [trainAcc] is computed. *)
Definition evaluate_epoch (st : loop_state) : loop_state :=
  let trained := train_batches (st_dnn st) (st_out st) in
  let dnn := fst trained in
  let pin := dnn_predict dnn train errorMeasure in
  let pout := dnn_predict dnn valid errorMeasure in
  mkLoopState dnn (fst pin) (Vec.push_back (st_Eout st) (fst pout)) (st_epoch st)
              (snd trained ++ snd pin ++ snd pout).

(** Lines 163-178, from the state that [evaluate_epoch] leaves. *)
Definition decide_epoch (st : loop_state) : flow * loop_state :=
  let trainAcc := accuracy (st_Ein st) nTrain in
  if F32.ltb trainAcc F32.zero then (Next, add_out st [EvMarker])
  else
    match Vec.at_ (st_Eout st) (st_epoch st) with
    | None => (Undefined, st)
    | Some eout =>
        let validAcc := accuracy eout nValid in
        let row := EvRow (st_epoch st)
                         (F32.mul trainAcc (F32.of_Z 100)) (SizeT.sub nTrain (st_Ein st))
                         (F32.mul validAcc (F32.of_Z 100)) (SizeT.sub nValid eout) in
        let adjusted (s : loop_state) :=
          mkLoopState (adjustLearningRate (st_dnn s) trainAcc) (st_Ein s) (st_Eout s)
                      (st_epoch s) (st_out s ++ [EvAdjustLearningRate trainAcc]) in
        let cfg := getConfig (st_dnn st) in
        if F32.ltb (minValidAccuracy cfg) validAcc then
          let call := EvStopPolicy (st_Eout st) (st_epoch st) (nNonIncEpoch cfg) in
          match isEoutStopDecrease (st_Eout st) (st_epoch st) (nNonIncEpoch cfg) with
          | None => (Undefined, add_out st [row; call])
          | Some true => (Break, add_out st [row; call])
          | Some false => (Next, adjusted (add_out st [row; call]))
          end
        else (Next, adjusted (add_out st [row]))
    end.

(** The body of the epoch loop, lines 147-178. *)
Definition epoch_body (st : loop_state) : flow * loop_state :=
  decide_epoch (evaluate_epoch st).

(** [++epoch] *)
Definition next_epoch (st : loop_state) : loop_state :=
  mkLoopState (st_dnn st) (st_Ein st) (st_Eout st) (SizeT.incr (st_epoch st)) (st_out st).

(** Line 145: [for (epoch=0; epoch<MAX_EPOCH; ++epoch)].  [todo] is the
    number of iterations that remain before [epoch] reaches [MAX_EPOCH]. *)
Fixpoint epoch_loop (todo : nat) (st : loop_state) : loop_exit * loop_state :=
  match todo with
  | O => (EXHAUSTED, st)
  | S todo' =>
      match epoch_body st with
      | (Next, st') => epoch_loop todo' (next_epoch st')
      | (Break, st') => (CONVERGED, st')
      | (Undefined, st') => (UNDEFINED, st')
      end
  end.

(** The state at the head of the loop once [done] iterations have run to
    their end, when the loop gets that far. *)
Fixpoint head_after (done : nat) (st : loop_state) : option loop_state :=
  match done with
  | O => Some st
  | S done' =>
      match head_after done' st with
      | Some s =>
          match epoch_body s with
          | (Next, s') => Some (next_epoch s')
          | _ => None
          end
      | None => None
      end
  end.

End EpochLoop.

(** Lines 181-188: the summary.  [Eout.back()] needs a non-empty vector;
    [None] is the call on an empty one. *)
Definition show_summary (train valid : DataSet) (st : loop_state) : option loop_state :=
  match Vec.back (st_Eout st) with
  | None => None
  | Some last =>
      Some (add_out st [EvEpochsInTotal (st_epoch st); EvElapsed;
                        EvShowAccuracy (st_Ein st) (DataSet_size train);
                        EvShowAccuracy last (DataSet_size valid)])
  end.

(** The loop state at line 145, before the first iteration. *)
Definition initial_state (dnn : DNN) (out : list event) : loop_state :=
  mkLoopState dnn 1 [] 0 (out ++ [EvTrainingBanner]).

(** Line 130. *)
Definition effective_learning_rate (dnn : DNN) (batchSize : Z) : F32.t :=
  F32.div (learningRate (getConfig dnn)) (F32.of_Z batchSize).

(** The epoch loop as [dnn_train] runs it. *)
Definition run_epochs (dnn : DNN) (train valid : DataSet) (batchSize : Z)
  (errorMeasure : ERROR_MEASURE) (out : list event) : loop_exit * loop_state :=
  let MAX_EPOCH := maxEpoch (getConfig dnn) in
  let lr := effective_learning_rate dnn batchSize in
  epoch_loop train valid batchSize errorMeasure lr
             (DataSet_size train) (DataSet_size valid)
             (Z.to_nat MAX_EPOCH) (initial_state dnn out).

(** Lines 182-186: what the summary has printed when line 188 comes to
    evaluate [Eout.back()]. *)
Definition summary_head (train : DataSet) (st : loop_state) : list event :=
  [EvEpochsInTotal (st_epoch st); EvElapsed;
   EvShowAccuracy (st_Ein st) (DataSet_size train)].

(** [dnn_train]: the way the loop was left ([UNDEFINED] also when the
    summary calls [Eout.back()] on an empty history, after the lines before
    it are printed) and the final state. *)
Definition dnn_train (dnn : DNN) (train valid : DataSet) (batchSize : Z)
  (errorMeasure : ERROR_MEASURE) (out : list event) : loop_exit * loop_state :=
  match run_epochs dnn train valid batchSize errorMeasure out with
  | (UNDEFINED, st) => (UNDEFINED, st)
  | (how, st) =>
      match show_summary train valid st with
      | Some st' => (how, st')
      | None => (UNDEFINED, add_out st (summary_head train st))
      end
  end.

(** ** [main], lines 28-116 *)

(** [std::string::npos] *)
Definition npos : Z := SizeT.modulus - 1.

Fixpoint find_last_of_from (s : string) (c : Ascii.ascii) (pos found : Z) : Z :=
  match s with
  | EmptyString => found
  | String a rest =>
      find_last_of_from rest c (pos + 1) (if Ascii.eqb a c then pos else found)
  end.

Definition find_last_of (s : string) (c : Ascii.ascii) : Z :=
  find_last_of_from s c 0 npos.

(** [s.substr(pos)], for [pos <= s.size()]. *)
Definition substr (s : string) (pos : Z) : string :=
  substring (Z.to_nat pos) (String.length s - Z.to_nat pos) s.

Definition with_variance (c : Config) (v : F32.t) : Config :=
  mkConfig v (learningRate c) (minValidAccuracy c) (maxEpoch c) (nNonIncEpoch c).
Definition with_learningRate (c : Config) (v : F32.t) : Config :=
  mkConfig (variance c) v (minValidAccuracy c) (maxEpoch c) (nNonIncEpoch c).
Definition with_minValidAccuracy (c : Config) (v : F32.t) : Config :=
  mkConfig (variance c) (learningRate c) v (maxEpoch c) (nNonIncEpoch c).
Definition with_maxEpoch (c : Config) (v : Z) : Config :=
  mkConfig (variance c) (learningRate c) (minValidAccuracy c) v (nNonIncEpoch c).

(** Lines 76-79 and 84-89: [config] is the freshly declared [Config config;]. *)
Definition main_config (config : Config) (cmd : CmdParser) : Config :=
  let learningRate := arg_float (opt cmd "--learning-rate") in
  let variance := arg_float (opt cmd "--variance") in
  let minValidAcc := arg_float (opt cmd "--min-acc") in
  let maxEpoch := arg_size_t (opt cmd "--max-epoch") in
  let config := with_variance config variance in
  let config := with_learningRate config learningRate in
  let config := with_minValidAccuracy config minValidAcc in
  let config := with_maxEpoch config maxEpoch in
  config.

Inductive main_result : Type :=
| UsageExit                              (* [cmd.showUsageAndExit()] *)
| Returned (out : list event)            (* [return 0] *)
| UndefinedBehaviour (out : list event).

(** The options whose value [main] passes on (lines 69-81); [--nf] is read
    into [n_filename] and [--type] is not read at all. *)
Definition options_used : list string :=
  ["--input-dim"; "--normalize"; "--base"; "-v"; "--batch-size"; "--learning-rate";
   "--variance"; "--min-acc"; "--max-epoch"; "--cache"]%string.

(** Two command lines that [main] cannot tell apart through the values it
    uses. *)
Definition same_used_input (cmd1 cmd2 : CmdParser) : Prop :=
  isOptionLegal cmd1 = isOptionLegal cmd2 /\
  (forall k, positional cmd1 k = positional cmd2 k) /\
  (forall name, In name options_used -> opt cmd1 name = opt cmd2 name).

(** Two command lines that differ at most in the value of the option
    [name]. *)
Definition differ_only_in (name : string) (cmd1 cmd2 : CmdParser) : Prop :=
  isOptionLegal cmd1 = isOptionLegal cmd2 /\
  (forall k, positional cmd1 k = positional cmd2 k) /\
  (forall other, other <> name -> opt cmd1 other = opt cmd2 other).

Definition main_undefined (r : main_result) : bool :=
  match r with UndefinedBehaviour _ => true | _ => false end.

Definition main_out (r : main_result) : list event :=
  match r with
  | UsageExit => []
  | Returned out | UndefinedBehaviour out => out
  end.

Definition main (cmd : CmdParser) : main_result :=
  if negb (isOptionLegal cmd) then UsageExit
  else
    let train_fn := positional cmd 1 in
    let model_in := positional cmd 2 in
    let model_out := positional cmd 3 in
    let input_dim := arg_size_t (opt cmd "--input-dim") in
    let n_type := arg_int (opt cmd "--normalize") in
    let n_filename := opt cmd "--nf" in
    let base := arg_int (opt cmd "--base") in
    let ratio := arg_int (opt cmd "-v") in
    let batchSize := arg_size_t (opt cmd "--batch-size") in
    let cache_size := arg_size_t (opt cmd "--cache") in
    let config := main_config Config_default cmd in
    let dnn := setConfig (DNN_load model_in) config in
    let data := DataSet_load train_fn input_dim base in
    (* data.loadPrecomputedStatistics(n_filename); is commented out, line 97 *)
    let data := setNormType data n_type in
    let tv := DataSet_split data ratio in
    let err := CROSS_ENTROPY in
    match dnn_train dnn (fst tv) (snd tv) batchSize err
                    [EvSetCacheSize cache_size; EvShowSummary data; EvConfigPrint config]
    with
    | (UNDEFINED, st) => UndefinedBehaviour (st_out st)
    | (_, st) =>
        let model_out :=
          if String.eqb model_out "" then
            (substr train_fn (SizeT.add (find_last_of train_fn "/"%char) 1) ++ ".model")%string
          else model_out in
        Returned (st_out st ++ [EvSave (st_dnn st) model_out])
    end.

End Driver.

(** ** A small set of collaborators on which the driver can be run

    A data set is a list of rows (feature, label); the network predicts the
    parity of the feature and counts its updates; [penalty] is what
    [zeroOneError] charges for one wrong row (1 for a proper count). *)

Module Sample.

Fixpoint decimal_from (s : string) (acc : Z) : Z :=
  match s with
  | EmptyString => acc
  | String c rest => decimal_from rest (10 * acc + (Z.of_nat (nat_of_ascii c) - 48))
  end.

Definition decimal (s : string) : Z := decimal_from s 0.

(** A value in hundredths: ["50"] is 0.5. *)
Definition hundredths (s : string) : F32.t :=
  F32.div (F32.of_Z (decimal s)) (F32.of_Z 100).

(** Modelled from the spec: [Batches] of [batch.h] is not among the
    sources.  Section 4.1: contiguous ranges [[start, end)] of [batchSize]
    indices that cover [[0, total)] in ascending order, the last one
    possibly shorter, none when [total] is 0. *)
Definition batches (batchSize total : Z) : list (Z * Z) :=
  if batchSize <=? 0 then []
  else
    map (fun k => let start := Z.of_nat k * batchSize in
                  (start, Z.min (start + batchSize) total))
        (seq 0 (Z.to_nat ((total + batchSize - 1) / batchSize))).

Definition rows (data : list (Z * Z)) (b : Z * Z) : list (Z * Z) :=
  firstn (Z.to_nat (snd b - fst b)) (skipn (Z.to_nat (fst b)) data).

Fixpoint mismatches (prob y : list Z) : Z :=
  match prob, y with
  | p :: prob', l :: y' => (if p =? l then 0 else 1) + mismatches prob' y'
  | _, _ => 0
  end.

Definition load (fn : string) (dim base : Z) : list (Z * Z) :=
  map (fun c => let f := Z.of_nat (nat_of_ascii c) in (f, f mod 2 + base))
      (list_ascii_of_string fn).

Definition split (data : list (Z * Z)) (ratio : Z) : list (Z * Z) * list (Z * Z) :=
  let n := Z.to_nat (Vec.size (map fst data) * ratio / (ratio + 1)) in
  (firstn n data, skipn n data).

Definition collaborators (config0 : Config) (penalty : Z) : Collaborators :=
  {| DNN := Config * Z;
     DataSet := list (Z * Z);
     mat := list Z;
     Batch := Z * Z;
     Config_default := config0;
     DNN_load := fun _ => (config0, 0);
     setConfig := fun dnn c => (c, snd dnn);
     getConfig := fst;
     feedForward_into := fun dnn x => (dnn, map (fun f => f mod 2) x);
     feedForward := fun _ x => map (fun f => f mod 2) x;
     backPropagate := fun dnn _ _ _ _ => (fst dnn, snd dnn + 1);
     adjustLearningRate := fun dnn _ =>
       (with_learningRate (fst dnn) (F32.div (learningRate (fst dnn)) (F32.of_Z 2)),
        snd dnn);
     getError := fun y fout _ => fout;
     zeroOneError := fun prob y _ => penalty * mismatches prob y;
     Batches := batches;
     DataSet_load := load;
     setNormType := fun data _ => data;
     DataSet_size := fun data => Vec.size (map fst data);
     DataSet_at := fun data b => (map fst (rows data b), map snd (rows data b));
     DataSet_split := split;
     arg_size_t := decimal;
     arg_int := decimal;
     arg_float := hundredths |}.

(** [Config] as its default construction leaves it in this sample. *)
Definition config0 (patience : Z) : Config :=
  mkConfig (hundredths "1") (hundredths "1") F32.zero 100000 patience.

(** [dnn-train <train_fn> <model_in>] with the defaults of lines 37-58
    (values of the [float] options in hundredths), three epochs at most. *)
Definition options (nf type : string) (name : string) : string :=
  if String.eqb name "--input-dim" then "0"
  else if String.eqb name "--normalize" then "0"
  else if String.eqb name "--nf" then nf
  else if String.eqb name "--base" then "0"
  else if String.eqb name "-v" then "5"
  else if String.eqb name "--max-epoch" then "3"
  else if String.eqb name "--min-acc" then "50"
  else if String.eqb name "--learning-rate" then "10"
  else if String.eqb name "--variance" then "1"
  else if String.eqb name "--batch-size" then "32"
  else if String.eqb name "--type" then type
  else if String.eqb name "--cache" then "16"
  else "".

Definition arguments (k : Z) : string :=
  if k =? 1 then "data/train3.dat" else if k =? 2 then "train3.model.in" else "".

Definition command_line (nf type : string) : CmdParser :=
  mkCmdParser true arguments (options nf type).

Definition cmd0 : CmdParser := command_line "" "0".

(** A proper error count, patience window 1 or 6 by default. *)
Definition proper : Collaborators := collaborators (config0 1) 1.
Definition wide : Collaborators := collaborators (config0 6) 1.

(** An error evaluator that charges three errors for a wrong row. *)
Definition overcounting : Collaborators := collaborators (config0 6) 3.

(** Rows whose labels are the parity of the feature, and rows whose labels
    are all off by one. *)
Definition clean (fn : string) : list (Z * Z) := load fn 0 0.
Definition shifted (fn : string) : list (Z * Z) := load fn 0 1.

End Sample.

(** ** Notions used to state further properties *)

(** Every count of the history is at most the one before it. *)
Fixpoint non_increasingb (Eout : list Z) : bool :=
  match Eout with
  | a :: (b :: _) as rest => (b <=? a) && non_increasingb rest
  | _ => true
  end.

Section Notions.

Context {C : Collaborators}.

(** The count that [zeroOneError] returns for one evaluation batch. *)
Definition batch_errors (dnn : DNN) (data : DataSet) (m : ERROR_MEASURE) (itr : Batch) : Z :=
  zeroOneError (feedForward dnn (fst (DataSet_at data itr))) (snd (DataSet_at data itr)) m.

Definition is_adjustLearningRate (e : event) : bool :=
  match e with EvAdjustLearningRate _ => true | _ => false end.

(** A call of [getError] or of [backPropagate]: what one mini-batch does. *)
Definition is_update_step (e : event) : bool :=
  match e with EvGetError _ | EvBackPropagate _ _ _ _ => true | _ => false end.

Definition is_save (e : event) : bool :=
  match e with EvSave _ _ => true | _ => false end.

(** Lines 151-157 for one mini-batch, on the model alone: the forward pass,
    the error term and the update step with the rate [lr]. *)
Definition batch_update (train : DataSet) (m : ERROR_MEASURE) (lr : F32.t)
  (d : DNN) (itr : Batch) : DNN :=
  let data := DataSet_at train itr in
  let ff := feedForward_into d (fst data) in
  backPropagate (fst ff) (getError (snd data) (snd ff) m) (fst data) (snd ff) lr.

(** The calls that the mini-batches [l] make, starting from the model [d]:
    for each one [getError] and then [backPropagate] with the arguments of
    line 157. *)
Fixpoint batch_events (train : DataSet) (m : ERROR_MEASURE) (lr : F32.t)
  (d : DNN) (l : list Batch) : list event :=
  match l with
  | [] => []
  | itr :: l' =>
      let data := DataSet_at train itr in
      let ff := feedForward_into d (fst data) in
      EvGetError m ::
      EvBackPropagate (getError (snd data) (snd ff) m) (fst data) (snd ff) lr ::
      batch_events train m lr (batch_update train m lr d itr) l'
  end.

(** The model that the mini-batches of one epoch leave, from the model [d]
    at the start of the epoch. *)
Definition after_batches (train : DataSet) (batchSize : Z) (m : ERROR_MEASURE)
  (lr : F32.t) (nTrain : Z) (d : DNN) : DNN :=
  fold_left (batch_update train m lr) (Batches batchSize nTrain) d.

(** The calls of lines 147-161 in their order: those of the mini-batches,
    then one [zeroOneError] per evaluation batch of the two data sets. *)
Definition epoch_log (train valid : DataSet) (batchSize : Z) (m : ERROR_MEASURE)
  (lr : F32.t) (nTrain : Z) (d : DNN) : list event :=
  batch_events train m lr d (Batches batchSize nTrain) ++
  repeat (EvZeroOneError m)
         (List.length (Batches 2048 (DataSet_size train)) +
          List.length (Batches 2048 (DataSet_size valid))).

(** Lines 92-93: the model that [main] trains. *)
Definition main_model (cmd : CmdParser) : DNN :=
  setConfig (DNN_load (positional cmd 2)) (main_config Config_default cmd).

(** Lines 96-98: the data set that [main] splits. *)
Definition main_data (cmd : CmdParser) : DataSet :=
  setNormType
    (DataSet_load (positional cmd 1) (arg_size_t (opt cmd "--input-dim"))
                  (arg_int (opt cmd "--base")))
    (arg_int (opt cmd "--normalize")).

(** Line 107: the call of [dnn_train] in [main], after what lines 82, 99 and
    103 have done. *)
Definition main_training (cmd : CmdParser) : loop_exit * loop_state :=
  dnn_train (main_model cmd)
            (fst (DataSet_split (main_data cmd) (arg_int (opt cmd "-v"))))
            (snd (DataSet_split (main_data cmd) (arg_int (opt cmd "-v"))))
            (arg_size_t (opt cmd "--batch-size")) CROSS_ENTROPY
            [EvSetCacheSize (arg_size_t (opt cmd "--cache"));
             EvShowSummary (main_data cmd);
             EvConfigPrint (main_config Config_default cmd)].

(** Lines 110-111: the name under which the model is saved. *)
Definition main_model_out (cmd : CmdParser) : string :=
  if String.eqb (positional cmd 3) "" then
    (substr (positional cmd 1) (SizeT.add (find_last_of (positional cmd 1) "/"%char) 1)
     ++ ".model")%string
  else positional cmd 3.

(** The model returns the configuration that [setConfig] gave it. *)
Definition stores_config : Prop :=
  forall d c, getConfig (setConfig d c) = c.

(** The model's own methods leave the patience window of its configuration
    as it is. *)
Definition keeps_patience : Prop :=
  (forall d x, nNonIncEpoch (getConfig (fst (feedForward_into d x))) =
               nNonIncEpoch (getConfig d)) /\
  (forall d error x fout lr,
     nNonIncEpoch (getConfig (backPropagate d error x fout lr)) =
     nNonIncEpoch (getConfig d)) /\
  (forall d trainAcc,
     nNonIncEpoch (getConfig (adjustLearningRate d trainAcc)) =
     nNonIncEpoch (getConfig d)).

(** Two command lines with the same answer to [isOptionLegal], the same
    three positional arguments and the same values of the options that
    [main] passes on. *)
Definition same_input_read (cmd1 cmd2 : CmdParser) : Prop :=
  isOptionLegal cmd1 = isOptionLegal cmd2 /\
  positional cmd1 1 = positional cmd2 1 /\
  positional cmd1 2 = positional cmd2 2 /\
  positional cmd1 3 = positional cmd2 3 /\
  (forall name, In name options_used -> opt cmd1 name = opt cmd2 name).

End Notions.

(** Any collaborators, with a model that also counts the calls of its
    [backPropagate]: the counter rides along with the model and nothing reads
    it. *)
Definition counting (C : Collaborators) : Collaborators :=
  {| DNN := (@DNN C * Z)%type;
     DataSet := @DataSet C;
     mat := @mat C;
     Batch := @Batch C;
     Config_default := @Config_default C;
     DNN_load := fun fn => (@DNN_load C fn, 0);
     setConfig := fun d c => (@setConfig C (fst d) c, snd d);
     getConfig := fun d => @getConfig C (fst d);
     feedForward_into := fun d x =>
       ((fst (@feedForward_into C (fst d) x), snd d), snd (@feedForward_into C (fst d) x));
     feedForward := fun d x => @feedForward C (fst d) x;
     backPropagate := fun d error x fout lr =>
       (@backPropagate C (fst d) error x fout lr, snd d + 1);
     adjustLearningRate := fun d trainAcc => (@adjustLearningRate C (fst d) trainAcc, snd d);
     getError := @getError C;
     zeroOneError := @zeroOneError C;
     Batches := @Batches C;
     DataSet_load := @DataSet_load C;
     setNormType := @setNormType C;
     DataSet_size := @DataSet_size C;
     DataSet_at := @DataSet_at C;
     DataSet_split := @DataSet_split C;
     arg_size_t := @arg_size_t C;
     arg_int := @arg_int C;
     arg_float := @arg_float C |}.

(** The character [c] occurs in [s]. *)
Fixpoint has_char (c : ascii) (s : string) : bool :=
  match s with
  | EmptyString => false
  | String a rest => Ascii.eqb a c || has_char c rest
  end.

(** ** Facts about [size_t] and vectors *)

Lemma modulus_eq : SizeT.modulus = 18446744073709551616.
Proof. reflexivity. Qed.

Lemma sub_no_borrow a b :
  0 <= b <= a -> a < SizeT.modulus -> SizeT.sub a b = a - b.
Proof.
  intros Hb Ha. unfold SizeT.sub, SizeT.wrap.
  apply Z.mod_small. lia.
Qed.

Lemma sub_borrow a b :
  0 <= a < b -> b <= SizeT.modulus -> SizeT.sub a b = a - b + SizeT.modulus.
Proof.
  intros Ha Hb. unfold SizeT.sub, SizeT.wrap.
  symmetry. apply Z.mod_unique with (q := -1); lia.
Qed.

Lemma incr_no_carry a :
  0 <= a -> a + 1 < SizeT.modulus -> SizeT.incr a = a + 1.
Proof.
  intros H0 H1. unfold SizeT.incr, SizeT.add, SizeT.wrap.
  apply Z.mod_small. lia.
Qed.

Lemma at_in_bounds v i :
  0 <= i < Vec.size v -> exists x, Vec.at_ v i = Some x.
Proof.
  intros H. unfold Vec.at_.
  replace (0 <=? i) with true by (symmetry; apply Z.leb_le; lia).
  replace (i <? Vec.size v) with true by (symmetry; apply Z.ltb_lt; lia).
  simpl. destruct (nth_error v (Z.to_nat i)) as [x|] eqn:E.
  - now exists x.
  - apply nth_error_None in E. unfold Vec.size in H. lia.
Qed.

Lemma at_out_of_bounds v i :
  Vec.size v <= i -> Vec.at_ v i = None.
Proof.
  intros H. unfold Vec.at_.
  replace (i <? Vec.size v) with false by (symmetry; apply Z.ltb_ge; lia).
  now rewrite andb_false_r.
Qed.

Lemma at_Some_bounds v i x :
  Vec.at_ v i = Some x -> 0 <= i < Vec.size v.
Proof.
  unfold Vec.at_. intros H.
  destruct (0 <=? i) eqn:E0; [|discriminate].
  destruct (i <? Vec.size v) eqn:E1; [|discriminate].
  apply Z.leb_le in E0. apply Z.ltb_lt in E1. lia.
Qed.

Lemma at_push_back_last v x :
  Vec.at_ (Vec.push_back v x) (Vec.size v) = Some x.
Proof.
  unfold Vec.at_, Vec.push_back, Vec.size.
  rewrite length_app. simpl.
  replace (0 <=? Z.of_nat (List.length v)) with true by (symmetry; apply Z.leb_le; lia).
  replace (Z.of_nat (List.length v) <? Z.of_nat (List.length v + 1)) with true
    by (symmetry; apply Z.ltb_lt; lia).
  simpl. rewrite Nat2Z.id, nth_error_app2 by lia.
  now rewrite Nat.sub_diag.
Qed.

Lemma at_push_back_old v x i y :
  Vec.at_ v i = Some y -> Vec.at_ (Vec.push_back v x) i = Some y.
Proof.
  intros H. pose proof (at_Some_bounds _ _ _ H) as Hb.
  unfold Vec.at_, Vec.push_back, Vec.size in *.
  rewrite length_app. simpl.
  replace (0 <=? i) with true in * by (symmetry; apply Z.leb_le; lia).
  replace (i <? Z.of_nat (List.length v)) with true in H by (symmetry; apply Z.ltb_lt; lia).
  replace (i <? Z.of_nat (List.length v + 1)) with true by (symmetry; apply Z.ltb_lt; lia).
  simpl in *. rewrite nth_error_app1 by lia. exact H.
Qed.

Lemma size_push_back v x : Vec.size (Vec.push_back v x) = Vec.size v + 1.
Proof. unfold Vec.size, Vec.push_back. rewrite length_app. simpl. lia. Qed.

(** ** The stopping policy inside and outside the recorded history *)

Lemma isEoutStopDecrease_from_S Eout epoch todo i :
  isEoutStopDecrease_from Eout epoch (S todo) i =
  if 0 <? SizeT.sub epoch i then
    match Vec.at_ Eout epoch, Vec.at_ Eout (SizeT.sub epoch i) with
    | Some cur, Some old =>
        if old <? cur then Some false
        else isEoutStopDecrease_from Eout epoch todo (SizeT.incr i)
    | _, _ => None
    end
  else isEoutStopDecrease_from Eout epoch todo (SizeT.incr i).
Proof. reflexivity. Qed.

(** While the window stays inside the history ([i + todo <= epoch + 1]) the
    loop returns a boolean, and it is [true] exactly when the contract of the
    specification holds on the offsets it visits. *)
Lemma isEoutStopDecrease_from_in_window Eout epoch :
  0 <= epoch < Vec.size Eout -> Vec.size Eout < SizeT.modulus ->
  forall todo i, 0 <= i -> i + Z.of_nat todo <= epoch + 1 ->
  exists b, isEoutStopDecrease_from Eout epoch todo i = Some b /\
    (b = true <->
     forall j, i <= j < i + Z.of_nat todo -> epoch - j > 0 ->
       no_worse_than Eout epoch (epoch - j)).
Proof.
  intros Hep Hm. destruct (at_in_bounds Eout epoch Hep) as [cur Hcur].
  induction todo as [|todo IH]; intros i Hi Hw.
  - exists true. split; [reflexivity|]. split; [|reflexivity]. intros _ j Hj. lia.
  - cbn [isEoutStopDecrease_from].
    rewrite sub_no_borrow by lia.
    assert (Hinc : SizeT.incr i = i + 1) by (apply incr_no_carry; lia).
    rewrite Hinc.
    destruct (IH (i + 1)) as [b [Hb Hiff]]; [lia|lia|].
    destruct (0 <? epoch - i) eqn:Hpos.
    + apply Z.ltb_lt in Hpos.
      destruct (at_in_bounds Eout (epoch - i)) as [old Hold]; [lia|].
      rewrite Hcur, Hold.
      destruct (old <? cur) eqn:Hlt.
      * apply Z.ltb_lt in Hlt. exists false. split; [reflexivity|].
        split; [discriminate|]. intros H.
        destruct (H i) as [c [o [Hc [Ho Hle]]]]; [lia|lia|].
        rewrite Hcur in Hc. rewrite Hold in Ho.
        injection Hc as <-. injection Ho as <-. lia.
      * apply Z.ltb_ge in Hlt. exists b. split; [exact Hb|].
        rewrite Hiff. split; intros H j Hj Hgt.
        -- destruct (Z.eq_dec j i) as [->|Hne].
           ++ exists cur, old. auto.
           ++ apply H; lia.
        -- apply H; lia.
    + apply Z.ltb_ge in Hpos. exists b. split; [exact Hb|].
      rewrite Hiff. split; intros H j Hj Hgt.
      * apply H; lia.
      * apply H; lia.
Qed.

(** With a patience window of at most [epoch + 1] the function meets the
    contract of the specification. *)
Lemma isEoutStopDecrease_in_window Eout epoch nNonIncEpoch :
  0 <= epoch < Vec.size Eout -> Vec.size Eout < SizeT.modulus ->
  0 <= nNonIncEpoch <= epoch + 1 ->
  exists b, isEoutStopDecrease Eout epoch nNonIncEpoch = Some b /\
    (b = true <-> spec_window_non_increasing Eout epoch nNonIncEpoch).
Proof.
  intros Hep Hm Hn. unfold isEoutStopDecrease, spec_window_non_increasing.
  destruct (isEoutStopDecrease_from_in_window Eout epoch Hep Hm
              (Z.to_nat nNonIncEpoch) 0) as [b [Hb Hiff]]; [lia|lia|].
  exists b. split; [exact Hb|].
  rewrite Hiff. rewrite Z2Nat.id by lia. simpl. tauto.
Qed.

(** Once the loop variable has passed [epoch], the subtraction [epoch - i]
    borrows and the subscript lies beyond every vector that fits in memory:
    the loop cannot return [true] any more. *)
Lemma isEoutStopDecrease_from_past_epoch Eout epoch :
  0 <= epoch < Vec.size Eout -> Vec.size Eout < SizeT.modulus ->
  forall todo i, epoch < i -> i <= SizeT.modulus - Vec.size Eout + epoch ->
  (0 < todo)%nat ->
  isEoutStopDecrease_from Eout epoch todo i = None.
Proof.
  intros Hep Hm todo i Hi Hw Hpos.
  destruct todo as [|todo]; [lia|].
  cbn [isEoutStopDecrease_from].
  rewrite sub_borrow by lia.
  replace (0 <? epoch - i + SizeT.modulus) with true by (symmetry; apply Z.ltb_lt; lia).
  destruct (at_in_bounds Eout epoch Hep) as [cur ->].
  rewrite at_out_of_bounds by lia. reflexivity.
Qed.

Lemma isEoutStopDecrease_from_not_true Eout epoch :
  0 <= epoch < Vec.size Eout -> Vec.size Eout < SizeT.modulus ->
  forall todo i, 0 <= i <= epoch + 1 -> epoch + 1 < i + Z.of_nat todo ->
  isEoutStopDecrease_from Eout epoch todo i <> Some true.
Proof.
  intros Hep Hm. destruct (at_in_bounds Eout epoch Hep) as [cur Hcur].
  induction todo as [|todo IH]; intros i Hi Hw; [lia|].
  destruct (Z.eq_dec i (epoch + 1)) as [->|Hne].
  - cbn [isEoutStopDecrease_from].
    rewrite sub_borrow by lia.
    replace (0 <? epoch - (epoch + 1) + SizeT.modulus) with true
      by (symmetry; apply Z.ltb_lt; lia).
    rewrite Hcur, at_out_of_bounds by lia. discriminate.
  - cbn [isEoutStopDecrease_from].
    rewrite incr_no_carry by lia.
    destruct (0 <? SizeT.sub epoch i).
    + rewrite Hcur.
      destruct (Vec.at_ Eout (SizeT.sub epoch i)) as [old|]; [|discriminate].
      destruct (old <? cur); [discriminate|]. apply IH; lia.
    + apply IH; lia.
Qed.

(** The function returns [true] exactly when every offset whose wrapped
    difference [epoch - i] is positive names a recorded epoch with a count
    that is at least the current one. *)
Lemma isEoutStopDecrease_from_true_iff Eout epoch :
  forall todo i, 0 <= i -> i + Z.of_nat todo <= SizeT.modulus ->
    isEoutStopDecrease_from Eout epoch todo i = Some true <->
    forall j, i <= j < i + Z.of_nat todo -> 0 < SizeT.sub epoch j ->
      no_worse_than Eout epoch (SizeT.sub epoch j).
Proof.
  induction todo as [|todo IH]; intros i Hi Hw.
  - simpl. split; [|reflexivity]. intros _ j Hj. lia.
  - rewrite isEoutStopDecrease_from_S.
    assert (Hrest :
      isEoutStopDecrease_from Eout epoch todo (SizeT.incr i) = Some true <->
      forall j, i + 1 <= j < i + 1 + Z.of_nat todo -> 0 < SizeT.sub epoch j ->
        no_worse_than Eout epoch (SizeT.sub epoch j)).
    { destruct todo as [|todo'].
      - simpl. split; [|reflexivity]. intros _ j Hj. lia.
      - rewrite incr_no_carry by lia. apply IH; lia. }
    destruct (0 <? SizeT.sub epoch i) eqn:Hpos.
    + apply Z.ltb_lt in Hpos.
      destruct (Vec.at_ Eout epoch) as [cur|] eqn:Hcur.
      2:{ split; [discriminate|]. intros H.
          destruct (H i) as [c [o [Hc _]]]; [lia|exact Hpos|]. congruence. }
      destruct (Vec.at_ Eout (SizeT.sub epoch i)) as [old|] eqn:Hold.
      2:{ split; [discriminate|]. intros H.
          destruct (H i) as [c [o [_ [Ho _]]]]; [lia|exact Hpos|]. congruence. }
      destruct (old <? cur) eqn:Hlt.
      * apply Z.ltb_lt in Hlt. split; [discriminate|]. intros H.
        destruct (H i) as [c [o [Hc [Ho Hle]]]]; [lia|exact Hpos|].
        assert (c = cur) by congruence. assert (o = old) by congruence. lia.
      * apply Z.ltb_ge in Hlt. rewrite Hrest. split; intros H j Hj Hgt.
        -- destruct (Z.eq_dec j i) as [->|Hne].
           ++ exists cur, old. auto.
           ++ apply H; [lia|exact Hgt].
        -- apply H; [lia|exact Hgt].
    + apply Z.ltb_ge in Hpos. rewrite Hrest. split; intros H j Hj Hgt.
      * destruct (Z.eq_dec j i) as [->|Hne]; [lia|]. apply H; [lia|exact Hgt].
      * apply H; [lia|exact Hgt].
Qed.

Lemma isEoutStopDecrease_true_iff Eout epoch nNonIncEpoch :
  0 <= nNonIncEpoch < SizeT.modulus ->
  isEoutStopDecrease Eout epoch nNonIncEpoch = Some true <->
  forall i, 0 <= i < nNonIncEpoch -> 0 < SizeT.sub epoch i ->
    no_worse_than Eout epoch (SizeT.sub epoch i).
Proof.
  intros Hn. unfold isEoutStopDecrease.
  rewrite isEoutStopDecrease_from_true_iff by lia.
  rewrite Z2Nat.id by lia. simpl. tauto.
Qed.

(** The examples of section 8 of the specification. *)
Example isEoutStopDecrease_flat_tail :
  isEoutStopDecrease [10; 9; 9; 9] 3 3 = Some true.
Proof. reflexivity. Qed.

Example isEoutStopDecrease_after_a_peak :
  isEoutStopDecrease [10; 9; 11; 9] 3 3 = Some true.
Proof. reflexivity. Qed.

Example isEoutStopDecrease_after_a_dip :
  isEoutStopDecrease [10; 9; 8; 9] 3 3 = Some false.
Proof. reflexivity. Qed.

(** With a window of one epoch the test at epoch 0 is vacuous. *)
Lemma isEoutStopDecrease_epoch0_narrow Eout nNonIncEpoch :
  nNonIncEpoch <= 1 -> isEoutStopDecrease Eout 0 nNonIncEpoch = Some true.
Proof.
  intros Hn. unfold isEoutStopDecrease.
  destruct (Z.to_nat nNonIncEpoch) as [|[|k]] eqn:E; [reflexivity|reflexivity|lia].
Qed.

(** A window wider than [epoch + 1] never lets the function return [true]. *)
Lemma isEoutStopDecrease_wide_window_never_true Eout epoch nNonIncEpoch :
  0 <= epoch < Vec.size Eout -> Vec.size Eout < SizeT.modulus ->
  epoch + 1 < nNonIncEpoch ->
  isEoutStopDecrease Eout epoch nNonIncEpoch <> Some true.
Proof.
  intros Hep Hm Hn. unfold isEoutStopDecrease.
  apply isEoutStopDecrease_from_not_true; lia.
Qed.

(** The function has no result exactly when one of the subscripts it forms
    lies outside the history. *)
Lemma isEoutStopDecrease_from_None_iff Eout epoch cur :
  Vec.at_ Eout epoch = Some cur ->
  forall todo i,
    isEoutStopDecrease_from Eout epoch todo i = None <->
    exists k, In k (isEoutStopDecrease_subscripts Eout epoch todo i) /\ Vec.at_ Eout k = None.
Proof.
  intros Hcur. induction todo as [|todo IH]; intros i.
  - simpl. split; [discriminate|]. intros [k [[] _]].
  - cbn [isEoutStopDecrease_from isEoutStopDecrease_subscripts].
    destruct (0 <? SizeT.sub epoch i); [|apply IH].
    rewrite Hcur.
    destruct (Vec.at_ Eout (SizeT.sub epoch i)) as [old|] eqn:Hold.
    + destruct (old <? cur).
      * split; [discriminate|]. intros [k [[<-|[]] Hk]]. congruence.
      * rewrite IH. split.
        -- intros [k [Hin Hk]]. exists k. split; [now right|exact Hk].
        -- intros [k [[<-|Hin] Hk]]; [congruence|]. now exists k.
    + split; [|reflexivity]. intros _. exists (SizeT.sub epoch i).
      split; [now left|exact Hold].
Qed.

(** ** The training loop *)

Section DriverFacts.

Context {C : Collaborators}.

Lemma training_event_not_row_or_decision lr m e :
  training_event lr m e -> is_row_or_decision e = false.
Proof. destruct e; simpl; intros H; try reflexivity; contradiction. Qed.

Lemma loop_event_rate lr m e : loop_event lr m e -> rate_is lr e.
Proof. destruct e; simpl; intros [H|H]; simpl in H; auto; contradiction. Qed.

Lemma loop_event_measure lr m e : loop_event lr m e -> measure_is m e.
Proof. destruct e; simpl; intros [H|H]; simpl in H; auto; contradiction. Qed.

Lemma existsb_row_or_decision lr m evs :
  Forall (training_event lr m) evs -> existsb is_row_or_decision evs = false.
Proof.
  induction 1 as [|e evs He _ IH]; [reflexivity|].
  simpl. now rewrite (training_event_not_row_or_decision _ _ _ He), IH.
Qed.

Lemma dnn_predict_batches_out dnn data m lr :
  forall l acc, exists evs,
    snd (fold_left (dnn_predict_batch dnn data m) l acc) = snd acc ++ evs /\
    Forall (training_event lr m) evs /\
    filter is_backPropagate evs = [].
Proof.
  induction l as [|itr l IH]; intros acc.
  - exists []. simpl. rewrite app_nil_r. auto.
  - simpl. destruct (IH (dnn_predict_batch dnn data m acc itr)) as [evs [Hout [Hev Hbp]]].
    exists (EvZeroOneError m :: evs). rewrite Hout. simpl.
    rewrite <- app_assoc. simpl. repeat split; auto.
    constructor; [reflexivity|exact Hev].
Qed.

Lemma dnn_predict_out dnn data m lr :
  Forall (training_event lr m) (snd (dnn_predict dnn data m)) /\
  filter is_backPropagate (snd (dnn_predict dnn data m)) = [].
Proof.
  unfold dnn_predict.
  destruct (dnn_predict_batches_out dnn data m lr (Batches 2048 (DataSet_size data)) (0, []))
    as [evs [Hout [Hev Hbp]]].
  rewrite Hout. simpl. auto.
Qed.

Section Loop.

Variables (train valid : DataSet) (batchSize : Z) (m : ERROR_MEASURE).
Variables (lr : F32.t) (nTrain nValid : Z).

Local Abbreviation batch := (train_batch train m lr).
Local Abbreviation batches := (train_batches train batchSize m lr nTrain).
Local Abbreviation evaluate := (evaluate_epoch train valid batchSize m lr nTrain).
Local Abbreviation decide := (decide_epoch nTrain nValid).
Local Abbreviation body := (epoch_body train valid batchSize m lr nTrain nValid).
Local Abbreviation loop := (epoch_loop train valid batchSize m lr nTrain nValid).
Local Abbreviation head := (head_after train valid batchSize m lr nTrain nValid).

(** One update step per mini-batch, each with the rate [lr]. *)
Lemma train_batch_fold_out :
  forall l acc, exists evs,
    snd (fold_left batch l acc) = snd acc ++ evs /\
    Forall (training_event lr m) evs /\
    List.length (filter is_backPropagate evs) = List.length l.
Proof.
  induction l as [|itr l IH]; intros acc.
  - exists []. simpl. rewrite app_nil_r. auto.
  - simpl. destruct (IH (batch acc itr)) as [evs [Hout [Hev Hbp]]].
    eexists (EvGetError m :: EvBackPropagate _ _ _ lr :: evs).
    rewrite Hout. cbn [train_batch snd].
    rewrite <- app_assoc. simpl. split; [reflexivity|]. split.
    + repeat constructor. exact Hev.
    + now rewrite Hbp.
Qed.

Lemma evaluate_epoch_out st :
  exists evs,
    st_out (evaluate st) = st_out st ++ evs /\
    Forall (training_event lr m) evs /\
    List.length (filter is_backPropagate evs) = List.length (Batches batchSize nTrain).
Proof.
  unfold evaluate_epoch, train_batches. simpl.
  destruct (train_batch_fold_out (Batches batchSize nTrain) (st_dnn st, st_out st))
    as [evs [Hout [Hev Hbp]]].
  rewrite Hout. simpl.
  set (dnn := fst (fold_left batch (Batches batchSize nTrain) (st_dnn st, st_out st))).
  destruct (dnn_predict_out dnn train m lr) as [Hin Hbin].
  destruct (dnn_predict_out dnn valid m lr) as [Hvl Hbvl].
  exists (evs ++ snd (dnn_predict dnn train m) ++ snd (dnn_predict dnn valid m)).
  rewrite <- app_assoc. split; [reflexivity|]. split.
  - repeat (apply Forall_app; split); assumption.
  - rewrite !filter_app, !length_app, Hbin, Hbvl. simpl. lia.
Qed.

Lemma evaluate_epoch_Eout st :
  st_Eout (evaluate st) =
  Vec.push_back (st_Eout st)
    (fst (dnn_predict (st_dnn (evaluate st)) valid m)) /\
  st_epoch (evaluate st) = st_epoch st /\
  st_dnn (evaluate st) = fst (batches (st_dnn st) (st_out st)).
Proof. repeat split. Qed.

(** The decision part leaves the model alone except through the hook, never
    touches the history, and emits report events only. *)
Lemma decide_epoch_frame st :
  st_Eout (snd (decide st)) = st_Eout st /\
  st_epoch (snd (decide st)) = st_epoch st /\
  st_Ein (snd (decide st)) = st_Ein st /\
  exists evs, st_out (snd (decide st)) = st_out st ++ evs /\
              Forall report_event evs.
Proof.
  unfold decide_epoch.
  destruct (F32.ltb (accuracy (st_Ein st) nTrain) F32.zero).
  { simpl. repeat split. exists [EvMarker]. split; [reflexivity|]. repeat constructor. }
  destruct (Vec.at_ (st_Eout st) (st_epoch st)) as [eout|].
  2:{ simpl. repeat split. exists []. rewrite app_nil_r. split; [reflexivity|constructor]. }
  destruct (F32.ltb _ (accuracy eout nValid)).
  2:{ simpl. repeat split. eexists [_; _]. rewrite <- app_assoc. simpl.
      split; [reflexivity|]. repeat constructor. }
  destruct (isEoutStopDecrease _ _ _) as [[|]|]; simpl; repeat split.
  - eexists [_; _]. split; [reflexivity|]. repeat constructor.
  - eexists [_; _; _]. rewrite <- app_assoc. simpl. split; [reflexivity|]. repeat constructor.
  - eexists [_; _]. split; [reflexivity|]. repeat constructor.
Qed.

Lemma epoch_body_out st :
  exists evs, st_out (snd (body st)) = st_out st ++ evs /\
              Forall (loop_event lr m) evs.
Proof.
  unfold epoch_body.
  destruct (evaluate_epoch_out st) as [e1 [H1 [F1 _]]].
  destruct (decide_epoch_frame (evaluate st)) as [_ [_ [_ [e2 [H2 F2]]]]].
  exists (e1 ++ e2). rewrite H2, H1, app_assoc. split; [reflexivity|].
  apply Forall_app. split.
  - eapply Forall_impl; [|exact F1]. intros e He. now left.
  - eapply Forall_impl; [|exact F2]. intros e He. now right.
Qed.

Lemma epoch_body_Eout st :
  st_Eout (snd (body st)) =
  Vec.push_back (st_Eout st) (fst (dnn_predict (st_dnn (evaluate st)) valid m)) /\
  st_epoch (snd (body st)) = st_epoch st.
Proof.
  unfold epoch_body.
  destruct (decide_epoch_frame (evaluate st)) as [HE [Hep _]].
  rewrite HE, Hep. split; reflexivity.
Qed.

Lemma epoch_loop_out :
  forall todo st, exists evs,
    st_out (snd (loop todo st)) = st_out st ++ evs /\
    Forall (loop_event lr m) evs.
Proof.
  induction todo as [|todo IH]; intros st.
  - exists []. simpl. rewrite app_nil_r. auto.
  - cbn [epoch_loop].
    destruct (epoch_body_out st) as [e1 [H1 F1]].
    destruct (body st) as [[| |] st'] eqn:E; simpl in H1.
    + destruct (IH (next_epoch st')) as [e2 [H2 F2]].
      exists (e1 ++ e2). rewrite H2. simpl. rewrite H1, app_assoc.
      split; [reflexivity|]. apply Forall_app; auto.
    + exists e1. auto.
    + exists e1. auto.
Qed.

(** [break] is reached only past both tests of line 175. *)
Lemma decide_epoch_Break st st' :
  decide st = (Break, st') ->
  exists eout,
    Vec.at_ (st_Eout st) (st_epoch st) = Some eout /\
    F32.ltb (accuracy (st_Ein st) nTrain) F32.zero = false /\
    F32.ltb (minValidAccuracy (getConfig (st_dnn st))) (accuracy eout nValid) = true /\
    isEoutStopDecrease (st_Eout st) (st_epoch st)
                       (nNonIncEpoch (getConfig (st_dnn st))) = Some true /\
    st_dnn st' = st_dnn st /\ st_Eout st' = st_Eout st /\ st_epoch st' = st_epoch st.
Proof.
  unfold decide_epoch.
  destruct (F32.ltb (accuracy (st_Ein st) nTrain) F32.zero); [discriminate|].
  destruct (Vec.at_ (st_Eout st) (st_epoch st)) as [eout|]; [|discriminate].
  destruct (F32.ltb _ (accuracy eout nValid)) eqn:Hacc; [|discriminate].
  destruct (isEoutStopDecrease _ _ _) as [[|]|] eqn:Hstop; try discriminate.
  intros H. injection H as <-. exists eout. simpl. repeat split; auto.
Qed.

Lemma epoch_loop_CONVERGED :
  forall todo st st',
    loop todo st = (CONVERGED, st') ->
    exists eout,
      Vec.at_ (st_Eout st') (st_epoch st') = Some eout /\
      F32.ltb (minValidAccuracy (getConfig (st_dnn st'))) (accuracy eout nValid) = true /\
      isEoutStopDecrease (st_Eout st') (st_epoch st')
                         (nNonIncEpoch (getConfig (st_dnn st'))) = Some true.
Proof.
  induction todo as [|todo IH]; intros st st' H.
  - discriminate.
  - cbn [epoch_loop] in H.
    destruct (body st) as [[| |] s] eqn:E.
    + eapply IH; eauto.
    + injection H as <-. unfold epoch_body in E.
      destruct (decide_epoch_Break _ _ E)
        as [eout [Hat [_ [Hacc [Hstop [Hd [HE Hep]]]]]]].
      exists eout. rewrite Hd, HE, Hep. auto.
    + discriminate.
Qed.

(** The loop visits the states that [head_after] lists. *)
Lemma epoch_loop_head_after :
  forall done todo st s,
    head done st = Some s -> loop (done + todo) st = loop todo s.
Proof.
  induction done as [|done IH]; intros todo st s H.
  - simpl in H. injection H as <-. reflexivity.
  - cbn [head_after] in H.
    destruct (head done st) as [s0|] eqn:E0; [|discriminate].
    destruct (body s0) as [[| |] s1] eqn:E1; try discriminate.
    injection H as <-.
    replace (S done + todo)%nat with (done + S todo)%nat by lia.
    rewrite (IH (S todo) st s0 E0). cbn [epoch_loop]. now rewrite E1.
Qed.

Lemma head_after_add :
  forall k done st,
    head (k + done) st =
    match head done st with Some s => head k s | None => None end.
Proof.
  induction k as [|k IH]; intros done st.
  - simpl. now destruct (head done st).
  - cbn [head_after Nat.add]. rewrite IH.
    destruct (head done st); reflexivity.
Qed.

(** At the head of the loop the history holds one count per finished
    epoch, and what it held before is still its prefix. *)
Lemma head_after_history :
  forall done st s,
    Vec.size (st_Eout st) = st_epoch st ->
    st_epoch st + Z.of_nat done < SizeT.modulus ->
    head done st = Some s ->
    st_epoch s = st_epoch st + Z.of_nat done /\
    Vec.size (st_Eout s) = st_epoch s /\
    exists added, st_Eout s = st_Eout st ++ added.
Proof.
  induction done as [|done IH]; intros st s Hsz Hm H.
  - simpl in H. injection H as <-. split; [lia|]. split; [exact Hsz|].
    exists []. now rewrite app_nil_r.
  - cbn [head_after] in H.
    destruct (head done st) as [s0|] eqn:E0; [|discriminate].
    destruct (body s0) as [[| |] s1] eqn:E1; try discriminate.
    injection H as <-.
    destruct (IH st s0 Hsz ltac:(lia) E0) as [Hep [Hs0 [added Hadd]]].
    destruct (epoch_body_Eout s0) as [HE Hep1]. rewrite E1 in HE, Hep1. simpl in HE, Hep1.
    assert (H0 : 0 <= st_epoch s0) by (rewrite <- Hs0; unfold Vec.size; lia).
    unfold next_epoch. simpl. rewrite Hep1, HE, size_push_back.
    rewrite incr_no_carry by lia.
    split; [lia|]. split; [lia|].
    exists (added ++ [fst (dnn_predict (st_dnn (evaluate s0)) valid m)]).
    unfold Vec.push_back. now rewrite Hadd, app_assoc.
Qed.

End Loop.

End DriverFacts.

(** ** [main] *)

Section MainFacts.

Context {C : Collaborators}.

Lemma show_summary_out train valid st st' :
  show_summary train valid st = Some st' ->
  exists evs, st_out st' = st_out st ++ evs /\
              Forall (fun e => is_backPropagate e = false /\ forall m, measure_is m e) evs.
Proof.
  unfold show_summary. destruct (Vec.back (st_Eout st)) as [last|]; [|discriminate].
  intros H. injection H as <-. eexists. split; [reflexivity|].
  repeat constructor.
Qed.

(** What [dnn_train] adds to the output: update steps with the rate of line
    130 and uses of the error measure it was given. *)
Lemma dnn_train_out dnn train valid batchSize m out :
  exists evs,
    st_out (snd (dnn_train dnn train valid batchSize m out)) = out ++ evs /\
    Forall (rate_is (effective_learning_rate dnn batchSize)) evs /\
    Forall (measure_is m) evs.
Proof.
  unfold dnn_train, run_epochs.
  set (lr := effective_learning_rate dnn batchSize).
  destruct (epoch_loop_out train valid batchSize m lr (DataSet_size train) (DataSet_size valid)
              (Z.to_nat (maxEpoch (getConfig dnn))) (initial_state dnn out))
    as [evs [Hout Hev]].
  assert (Hloop : Forall (rate_is lr) (EvTrainingBanner :: evs) /\
                  Forall (measure_is m) (EvTrainingBanner :: evs)).
  { split; constructor; try exact I.
    - eapply Forall_impl; [|exact Hev]. apply loop_event_rate.
    - eapply Forall_impl; [|exact Hev]. apply loop_event_measure. }
  destruct Hloop as [Hr Hm].
  destruct (epoch_loop _ _ _ _ _ _ _ _ _) as [how st] eqn:E. simpl in Hout.
  assert (Hst : st_out st = out ++ EvTrainingBanner :: evs).
  { rewrite Hout. unfold initial_state. simpl. now rewrite <- app_assoc. }
  assert (Hdone : exists evs0, st_out st = out ++ evs0 /\
                    Forall (rate_is lr) evs0 /\ Forall (measure_is m) evs0).
  { eexists. split; [exact Hst|]. auto. }
  assert (Hsum : forall st', show_summary train valid st = Some st' ->
            exists evs0, st_out st' = out ++ evs0 /\
              Forall (rate_is lr) evs0 /\ Forall (measure_is m) evs0).
  { intros st' Hs. destruct (show_summary_out _ _ _ _ Hs) as [e2 [H2 F2]].
    exists ((EvTrainingBanner :: evs) ++ e2). rewrite H2, Hst, <- app_assoc.
    split; [reflexivity|]. split; apply Forall_app; split; auto.
    - eapply Forall_impl; [|exact F2]. intros e [He _]. destruct e; simpl in *; auto; discriminate.
    - eapply Forall_impl; [|exact F2]. intros e [_ He]. apply He. }
  assert (Hhead : exists evs0,
            st_out (add_out st (summary_head train st)) = out ++ evs0 /\
            Forall (rate_is lr) evs0 /\ Forall (measure_is m) evs0).
  { exists ((EvTrainingBanner :: evs) ++ summary_head train st).
    cbn [st_out add_out]. rewrite Hst, <- app_assoc.
    split; [reflexivity|]. split; apply Forall_app; split; auto;
      unfold summary_head; repeat constructor. }
  destruct how; simpl; auto;
    destruct (show_summary train valid st) as [st'|] eqn:Es; simpl; auto.
Qed.

(** [main] passes on nothing but the values of [options_used]. *)
Lemma main_reads_only cmd1 cmd2 :
  same_used_input cmd1 cmd2 -> main cmd1 = main cmd2.
Proof.
  intros [Hlegal [Hpos Hopt]]. unfold main, main_config.
  rewrite Hlegal, !Hpos.
  rewrite !(Hopt "--input-dim"%string), !(Hopt "--normalize"%string),
    !(Hopt "--base"%string), !(Hopt "-v"%string), !(Hopt "--batch-size"%string),
    !(Hopt "--learning-rate"%string), !(Hopt "--variance"%string),
    !(Hopt "--min-acc"%string), !(Hopt "--max-epoch"%string), !(Hopt "--cache"%string)
    by (unfold options_used; simpl; tauto).
  reflexivity.
Qed.

Lemma differ_only_in_same_used name cmd1 cmd2 :
  ~ In name options_used -> differ_only_in name cmd1 cmd2 -> same_used_input cmd1 cmd2.
Proof.
  intros Hname [Hlegal [Hpos Hopt]]. repeat split; auto.
  intros other Hin. apply Hopt. intros ->. contradiction.
Qed.

Lemma main_measure cmd : Forall (measure_is CROSS_ENTROPY) (main_out (main cmd)).
Proof.
  unfold main. destruct (negb (isOptionLegal cmd)); [constructor|]. cbv zeta.
  match goal with
  | |- context [dnn_train ?d ?t ?v ?b ?m ?o] =>
      destruct (dnn_train_out d t v b m o) as [evs [Hout [_ Hm]]];
      destruct (dnn_train d t v b m o) as [how st]
  end.
  simpl in Hout.
  assert (Hall : Forall (measure_is CROSS_ENTROPY) (st_out st)).
  { rewrite Hout. repeat (constructor; [exact I|]). exact Hm. }
  destruct how; simpl; auto; apply Forall_app; split; auto; repeat constructor.
Qed.

End MainFacts.

(** ** The sample command lines *)

Lemma sample_options_differ_in_nf nf1 nf2 type :
  differ_only_in "--nf" (Sample.command_line nf1 type) (Sample.command_line nf2 type).
Proof.
  repeat split. intros other Hne. simpl. unfold Sample.options.
  apply String.eqb_neq in Hne. now rewrite Hne.
Qed.

Lemma sample_options_differ_in_type nf type1 type2 :
  differ_only_in "--type" (Sample.command_line nf type1) (Sample.command_line nf type2).
Proof.
  repeat split. intros other Hne. simpl. unfold Sample.options.
  apply String.eqb_neq in Hne. now rewrite Hne.
Qed.

Lemma nf_not_used : ~ In "--nf"%string options_used.
Proof. unfold options_used. simpl. intuition discriminate. Qed.

Lemma type_not_used : ~ In "--type"%string options_used.
Proof. unfold options_used. simpl. intuition discriminate. Qed.

(** With a default patience window of 6 the first epoch of a run that clears
    the accuracy threshold calls the stopping policy at epoch 0 and reaches
    the subscript [2^64 - 1]. *)
Lemma sample_run_leaves_the_history :
  main_undefined (main (C := Sample.wide) Sample.cmd0) = true /\
  patience_windows (main_out (main (C := Sample.wide) Sample.cmd0)) = [6].
Proof. split; vm_compute; reflexivity. Qed.

Lemma converged_pair {C : Collaborators} (r : loop_exit * loop_state) :
  fst r = CONVERGED -> r = (CONVERGED, snd r).
Proof. destruct r as [how st]. simpl. now intros ->. Qed.

Lemma reached_head {C : Collaborators} (o : option loop_state) :
  match o with Some _ => true | None => false end = true -> exists s, o = Some s.
Proof. destruct o as [s|]; [now exists s|discriminate]. Qed.

(** * The claims *)

(** C1 (the code departs from it): the specification says that
    [isEoutStopDecrease] returns true exactly when every offset [i] of the
    window with [epoch - i > 0] sees [Eout[epoch] <= Eout[epoch - i]].  On the
    history [[5]] at epoch 0 with a window of 2 that condition holds (no
    offset qualifies), yet the function does not return true: at [i = 1] it
    subscripts the history outside its bounds. *)
Theorem isEoutStopDecrease_departs_from_contract :
  spec_window_non_increasing [5] 0 2 /\
  isEoutStopDecrease [5] 0 1 = Some true /\
  isEoutStopDecrease [5] 0 2 = None.
Proof.
  split; [|split; reflexivity].
  intros i Hi Hgt. lia.
Qed.

(** C2 (the code departs from it): the claim is that [epoch - i] never
    underflows and that every access [Eout[epoch - i]] is within bounds.  On
    the history [[5]] at epoch 0 with a window of 2 the subtraction [0 - 1]
    wraps to [2^64 - 1], that value is used as a subscript, and it is outside
    the one-element history. *)
Theorem isEoutStopDecrease_subscript_underflows :
  SizeT.sub 0 1 = SizeT.modulus - 1 /\
  isEoutStopDecrease_subscripts [5] 0 (Z.to_nat 2) 0 = [SizeT.modulus - 1] /\
  Vec.at_ [5] (SizeT.modulus - 1) = None /\
  isEoutStopDecrease [5] 0 2 = None.
Proof. repeat split. Qed.

(** C3 (the code departs from it): the claim is that at epoch 0 the function
    returns true for every window.  For every non-empty history and every
    window of at least 2 it has no result: the second iteration subscripts
    the history at [2^64 - 1]. *)
Theorem isEoutStopDecrease_epoch0_wide_window Eout nNonIncEpoch :
  Eout <> [] -> Vec.size Eout < SizeT.modulus -> 2 <= nNonIncEpoch ->
  isEoutStopDecrease Eout 0 nNonIncEpoch = None.
Proof.
  intros Hne Hm Hn. unfold isEoutStopDecrease.
  destruct (Z.to_nat nNonIncEpoch) as [|[|k]] eqn:E; [lia|lia|].
  assert (Hsz : 0 < Vec.size Eout).
  { destruct Eout; [congruence|]. unfold Vec.size. simpl. lia. }
  rewrite isEoutStopDecrease_from_S.
  replace (SizeT.sub 0 0) with 0 by reflexivity.
  replace (SizeT.incr 0) with 1 by reflexivity.
  replace (0 <? 0) with false by reflexivity.
  apply isEoutStopDecrease_from_past_epoch; lia.
Qed.

Lemma isEoutStopDecrease_epoch0_wide_window_witness :
  [5] <> [] /\ Vec.size [5] < SizeT.modulus /\ 2 <= 6 /\
  isEoutStopDecrease [5] 0 6 = None.
Proof.
  assert (H1 : [5] <> []) by discriminate.
  assert (H2 : Vec.size [5] < SizeT.modulus) by reflexivity.
  assert (H3 : 2 <= 6) by lia.
  split; [exact H1|]. split; [exact H2|]. split; [exact H3|].
  exact (isEoutStopDecrease_epoch0_wide_window [5] 6 H1 H2 H3).
Defined.

(** Lines 84-89 assign four fields of [config] and leave [nNonIncEpoch] as
    the declaration gave it. *)
Lemma main_config_assigns {C : Collaborators} (config : Config) (cmd : CmdParser) :
  variance (main_config config cmd) = arg_float (opt cmd "--variance") /\
  learningRate (main_config config cmd) = arg_float (opt cmd "--learning-rate") /\
  minValidAccuracy (main_config config cmd) = arg_float (opt cmd "--min-acc") /\
  maxEpoch (main_config config cmd) = arg_size_t (opt cmd "--max-epoch") /\
  nNonIncEpoch (main_config config cmd) = nNonIncEpoch config.
Proof. repeat split. Qed.

(** C4, as stated, fails: with one and the same command line the patience
    window is 1 or 6 according to what the default construction of [Config]
    leaves there, and 6 is what the stopping check of the run is given. *)
Lemma patience_window_not_from_command_line :
  nNonIncEpoch (main_config (C := Sample.proper) (Sample.config0 1) Sample.cmd0) <>
  nNonIncEpoch (main_config (C := Sample.proper) (Sample.config0 6) Sample.cmd0) /\
  patience_windows (main_out (main (C := Sample.proper) Sample.cmd0)) = [1] /\
  patience_windows (main_out (main (C := Sample.wide) Sample.cmd0)) = [6].
Proof.
  split; [discriminate|].
  split; vm_compute; reflexivity.
Qed.

(** C5 (the code departs from it): the claim is that the option [--type]
    selects the error measure.  Two command lines that differ only in
    [--type] make [main] do the same, and every call of the error evaluator
    is given [CROSS_ENTROPY]. *)
Theorem error_measure_ignores_type {C : Collaborators} (cmd1 cmd2 : CmdParser) :
  differ_only_in "--type" cmd1 cmd2 ->
  main cmd1 = main cmd2 /\
  Forall (measure_is CROSS_ENTROPY) (main_out (main cmd2)).
Proof.
  intros H. split.
  - apply main_reads_only. eapply differ_only_in_same_used; [apply type_not_used|exact H].
  - apply main_measure.
Qed.

Lemma error_measure_ignores_type_witness :
  differ_only_in "--type" (Sample.command_line "" "0") (Sample.command_line "" "1") /\
  main (C := Sample.proper) (Sample.command_line "" "0") =
  main (C := Sample.proper) (Sample.command_line "" "1").
Proof.
  split.
  - apply sample_options_differ_in_type.
  - exact (proj1 (error_measure_ignores_type (C := Sample.proper) _ _
                    (sample_options_differ_in_type "" "0" "1"))).
Defined.

(** C7: the loop is left by [break] only in an epoch whose validation accuracy
    [1 - Eout[epoch]/nValid] is strictly greater than
    [Config.minValidAccuracy] and in which the stopping policy returned true;
    this holds for epoch 0 as for any other. *)
Theorem converged_only_above_min_accuracy {C : Collaborators}
  (train valid : DataSet) (batchSize : Z) (m : ERROR_MEASURE) (lr : F32.t)
  (nTrain nValid : Z) (todo : nat) (st st' : loop_state) :
  epoch_loop train valid batchSize m lr nTrain nValid todo st = (CONVERGED, st') ->
  exists eout,
    Vec.at_ (st_Eout st') (st_epoch st') = Some eout /\
    F32.ltb (minValidAccuracy (getConfig (st_dnn st'))) (accuracy eout nValid) = true /\
    isEoutStopDecrease (st_Eout st') (st_epoch st')
                       (nNonIncEpoch (getConfig (st_dnn st'))) = Some true.
Proof. apply epoch_loop_CONVERGED. Qed.

Lemma converged_only_above_min_accuracy_witness :
  epoch_loop (C := Sample.proper)
    (Sample.clean "abcd") (Sample.clean "ef") 2 CROSS_ENTROPY F32.one 4 2 3
    (initial_state (C := Sample.proper) (Sample.config0 1, 0) []) =
  (CONVERGED,
   snd (epoch_loop (C := Sample.proper)
          (Sample.clean "abcd") (Sample.clean "ef") 2 CROSS_ENTROPY F32.one 4 2 3
          (initial_state (C := Sample.proper) (Sample.config0 1, 0) []))) /\
  exists eout,
    Vec.at_
      (st_Eout (snd (epoch_loop (C := Sample.proper)
          (Sample.clean "abcd") (Sample.clean "ef") 2 CROSS_ENTROPY F32.one 4 2 3
          (initial_state (C := Sample.proper) (Sample.config0 1, 0) []))))
      (st_epoch (snd (epoch_loop (C := Sample.proper)
          (Sample.clean "abcd") (Sample.clean "ef") 2 CROSS_ENTROPY F32.one 4 2 3
          (initial_state (C := Sample.proper) (Sample.config0 1, 0) [])))) = Some eout /\
    F32.ltb
      (minValidAccuracy (getConfig (st_dnn (snd (epoch_loop (C := Sample.proper)
          (Sample.clean "abcd") (Sample.clean "ef") 2 CROSS_ENTROPY F32.one 4 2 3
          (initial_state (C := Sample.proper) (Sample.config0 1, 0) []))))))
      (accuracy eout 2) = true.
Proof.
  assert (Hrun :
    epoch_loop (C := Sample.proper)
      (Sample.clean "abcd") (Sample.clean "ef") 2 CROSS_ENTROPY F32.one 4 2 3
      (initial_state (C := Sample.proper) (Sample.config0 1, 0) []) =
    (CONVERGED,
     snd (epoch_loop (C := Sample.proper)
            (Sample.clean "abcd") (Sample.clean "ef") 2 CROSS_ENTROPY F32.one 4 2 3
            (initial_state (C := Sample.proper) (Sample.config0 1, 0) []))))
    by (apply converged_pair; vm_compute; reflexivity).
  split; [exact Hrun|].
  destruct (converged_only_above_min_accuracy (C := Sample.proper)
              (Sample.clean "abcd") (Sample.clean "ef") 2 CROSS_ENTROPY F32.one 4 2 3
              (initial_state (C := Sample.proper) (Sample.config0 1, 0) []) _ Hrun)
    as [eout [Hat [Hacc _]]].
  exists eout. split; [exact Hat|exact Hacc].
Defined.



(** C10: two command lines that differ only in the value of [--nf] make
    [main] do the same: the same output, the same calls of the collaborators
    with the same arguments, the same model saved under the same name. *)
Theorem main_ignores_nf {C : Collaborators} (cmd1 cmd2 : CmdParser) :
  differ_only_in "--nf" cmd1 cmd2 -> main cmd1 = main cmd2.
Proof.
  intros H. apply main_reads_only.
  eapply differ_only_in_same_used; [apply nf_not_used|exact H].
Qed.

Lemma main_ignores_nf_witness :
  differ_only_in "--nf" (Sample.command_line "" "0") (Sample.command_line "train3.stat" "0") /\
  main (C := Sample.overcounting) (Sample.command_line "" "0") =
  main (C := Sample.overcounting) (Sample.command_line "train3.stat" "0").
Proof.
  split.
  - apply sample_options_differ_in_nf.
  - exact (main_ignores_nf (C := Sample.overcounting) _ _
             (sample_options_differ_in_nf "" "train3.stat" "0")).
Defined.


(** * Further properties of the stopping policy *)

Lemma at_cons_succ a l k :
  0 <= k -> Vec.at_ (a :: l) (k + 1) = Vec.at_ l k.
Proof.
  intros Hk. unfold Vec.at_, Vec.size. cbn [List.length].
  replace (0 <=? k + 1) with true by (symmetry; apply Z.leb_le; lia).
  replace (0 <=? k) with true by (symmetry; apply Z.leb_le; lia).
  replace (k + 1 <? Z.of_nat (S (List.length l))) with (k <? Z.of_nat (List.length l)).
  2:{ destruct (k <? Z.of_nat (List.length l)) eqn:E; symmetry.
      - apply Z.ltb_lt in E. apply Z.ltb_lt. lia.
      - apply Z.ltb_ge in E. apply Z.ltb_ge. lia. }
  simpl andb. destruct (k <? Z.of_nat (List.length l)); [|reflexivity].
  replace (Z.to_nat (k + 1)) with (S (Z.to_nat k)) by lia. reflexivity.
Qed.

Lemma at_cons_nonzero a b l k :
  k <> 0 -> Vec.at_ (a :: l) k = Vec.at_ (b :: l) k.
Proof.
  intros Hk. destruct (Z_lt_le_dec k 0) as [Hneg|Hpos].
  - unfold Vec.at_. replace (0 <=? k) with false by (symmetry; apply Z.leb_gt; lia).
    reflexivity.
  - replace k with (k - 1 + 1) by lia. rewrite !at_cons_succ by lia. reflexivity.
Qed.

Lemma isEoutStopDecrease_from_agree E1 E2 epoch :
  epoch <> 0 ->
  (forall k, k <> 0 -> Vec.at_ E1 k = Vec.at_ E2 k) ->
  forall todo i,
    isEoutStopDecrease_from E1 epoch todo i = isEoutStopDecrease_from E2 epoch todo i.
Proof.
  intros Hep Hagree. induction todo as [|todo IH]; intros i; [reflexivity|].
  rewrite !isEoutStopDecrease_from_S.
  destruct (0 <? SizeT.sub epoch i) eqn:Hpos; [|apply IH].
  apply Z.ltb_lt in Hpos.
  rewrite (Hagree epoch Hep), (Hagree (SizeT.sub epoch i)) by lia.
  destruct (Vec.at_ E2 epoch) as [cur|]; [|reflexivity].
  destruct (Vec.at_ E2 (SizeT.sub epoch i)) as [old|]; [|reflexivity].
  destruct (old <? cur); [reflexivity|apply IH].
Qed.

Lemma isEoutStopDecrease_from_true_shorter Eout epoch :
  forall todo todo' i, (todo' <= todo)%nat ->
    isEoutStopDecrease_from Eout epoch todo i = Some true ->
    isEoutStopDecrease_from Eout epoch todo' i = Some true.
Proof.
  induction todo as [|todo IH]; intros todo' i Hle H.
  - replace todo' with O by lia. reflexivity.
  - destruct todo' as [|todo']; [reflexivity|].
    rewrite isEoutStopDecrease_from_S in *.
    destruct (0 <? SizeT.sub epoch i).
    + destruct (Vec.at_ Eout epoch) as [cur|]; [|discriminate].
      destruct (Vec.at_ Eout (SizeT.sub epoch i)) as [old|]; [|discriminate].
      destruct (old <? cur); [discriminate|]. apply (IH todo'); [lia|exact H].
    + apply (IH todo'); [lia|exact H].
Qed.

Lemma isEoutStopDecrease_from_false_longer Eout epoch :
  forall todo todo' i, (todo <= todo')%nat ->
    isEoutStopDecrease_from Eout epoch todo i = Some false ->
    isEoutStopDecrease_from Eout epoch todo' i = Some false.
Proof.
  induction todo as [|todo IH]; intros todo' i Hle H; [discriminate|].
  destruct todo' as [|todo']; [lia|].
  rewrite isEoutStopDecrease_from_S in *.
  destruct (0 <? SizeT.sub epoch i).
  - destruct (Vec.at_ Eout epoch) as [cur|]; [|discriminate].
    destruct (Vec.at_ Eout (SizeT.sub epoch i)) as [old|]; [|discriminate].
    destruct (old <? cur); [reflexivity|]. apply (IH todo'); [lia|exact H].
  - apply (IH todo'); [lia|exact H].
Qed.

Lemma non_increasingb_at :
  forall Eout i j a b,
    non_increasingb Eout = true -> 0 <= i <= j ->
    Vec.at_ Eout i = Some a -> Vec.at_ Eout j = Some b -> b <= a.
Proof.
  assert (Hhead : forall Eout a j b,
            non_increasingb (a :: Eout) = true -> 0 <= j ->
            Vec.at_ (a :: Eout) j = Some b -> b <= a).
  { induction Eout as [|c Eout IH]; intros a j b Hs Hj Hb.
    - pose proof (at_Some_bounds _ _ _ Hb) as Hbd. unfold Vec.size in Hbd. simpl in Hbd.
      replace j with 0 in Hb by lia. unfold Vec.at_ in Hb. simpl in Hb. injection Hb as <-. lia.
    - destruct (Z.eq_dec j 0) as [->|Hne].
      + unfold Vec.at_ in Hb. simpl in Hb. injection Hb as <-. lia.
      + cbn [non_increasingb] in Hs. apply andb_true_iff in Hs. destruct Hs as [Hca Hs].
        apply Z.leb_le in Hca.
        replace j with (j - 1 + 1) in Hb by lia. rewrite at_cons_succ in Hb by lia.
        pose proof (IH c (j - 1) b Hs ltac:(lia) Hb). lia. }
  induction Eout as [|c Eout IH]; intros i j a b Hs Hij Ha Hb.
  - pose proof (at_Some_bounds _ _ _ Ha) as Hbd. unfold Vec.size in Hbd. simpl in Hbd. lia.
  - destruct (Z.eq_dec i 0) as [->|Hne].
    + unfold Vec.at_ in Ha. simpl in Ha. injection Ha as <-.
      apply (Hhead Eout c j b Hs); [lia|exact Hb].
    + replace i with (i - 1 + 1) in Ha by lia. rewrite at_cons_succ in Ha by lia.
      replace j with (j - 1 + 1) in Hb by lia. rewrite at_cons_succ in Hb by lia.
      apply (IH (i - 1) (j - 1) a b); [|lia|exact Ha|exact Hb].
      destruct Eout as [|d Eout]; [reflexivity|].
      cbn [non_increasingb] in Hs. apply andb_true_iff in Hs. tauto.
Qed.

(** X1: while the patience window reaches no further back than epoch 0
    ([nNonIncEpoch <= epoch + 1]) the function always returns a boolean, and
    it is [true] exactly when the contract of the trailing window holds:
    [true] if the count of [epoch] is at most that of every epoch
    [epoch - i > 0] of the window, [false] otherwise. *)
Theorem isEoutStopDecrease_decides_window Eout epoch nNonIncEpoch :
  0 <= epoch < Vec.size Eout -> Vec.size Eout < SizeT.modulus ->
  0 <= nNonIncEpoch <= epoch + 1 ->
  (spec_window_non_increasing Eout epoch nNonIncEpoch ->
   isEoutStopDecrease Eout epoch nNonIncEpoch = Some true) /\
  (~ spec_window_non_increasing Eout epoch nNonIncEpoch ->
   isEoutStopDecrease Eout epoch nNonIncEpoch = Some false).
Proof.
  intros Hep Hm Hn.
  destruct (isEoutStopDecrease_in_window Eout epoch nNonIncEpoch Hep Hm Hn) as [b [Hb Hiff]].
  rewrite Hb. split; intros H.
  - f_equal. now apply Hiff.
  - destruct b; [|reflexivity]. exfalso. apply H. now apply Hiff.
Qed.

Lemma isEoutStopDecrease_decides_window_witness :
  0 <= 3 < Vec.size [10; 9; 8; 9] /\ Vec.size [10; 9; 8; 9] < SizeT.modulus /\
  0 <= 3 <= 3 + 1 /\
  (~ spec_window_non_increasing [10; 9; 8; 9] 3 3 ->
   isEoutStopDecrease [10; 9; 8; 9] 3 3 = Some false).
Proof.
  assert (H1 : 0 <= 3 < Vec.size [10; 9; 8; 9]) by (unfold Vec.size; simpl; lia).
  assert (H2 : Vec.size [10; 9; 8; 9] < SizeT.modulus) by reflexivity.
  assert (H3 : 0 <= 3 <= 3 + 1) by lia.
  split; [exact H1|]. split; [exact H2|]. split; [exact H3|].
  exact (proj2 (isEoutStopDecrease_decides_window [10; 9; 8; 9] 3 3 H1 H2 H3)).
Defined.

(** X2: the count of epoch 0 takes no part in the test.  For every current
    epoch other than 0, two histories that differ only in their first entry
    get the same answer, whatever the window. *)
Theorem isEoutStopDecrease_ignores_epoch0 (a b : Z) (rest : list Z) (epoch nNonIncEpoch : Z) :
  epoch <> 0 ->
  isEoutStopDecrease (a :: rest) epoch nNonIncEpoch =
  isEoutStopDecrease (b :: rest) epoch nNonIncEpoch.
Proof.
  intros Hep. unfold isEoutStopDecrease.
  apply isEoutStopDecrease_from_agree; [exact Hep|].
  intros k Hk. now apply at_cons_nonzero.
Qed.

Lemma isEoutStopDecrease_ignores_epoch0_witness :
  3 <> 0 /\
  isEoutStopDecrease [0; 9; 9; 9] 3 4 = isEoutStopDecrease [10; 9; 9; 9] 3 4.
Proof.
  assert (H : 3 <> 0) by discriminate.
  split; [exact H|].
  exact (isEoutStopDecrease_ignores_epoch0 0 10 [9; 9; 9] 3 4 H).
Defined.

(** X3: the answer is monotone in the patience window.  If the function
    returns [true] for a window it returns [true] for every narrower one, and
    if it returns [false] for a window it returns [false] for every wider
    one. *)
Theorem isEoutStopDecrease_window_monotone Eout epoch narrow wide :
  narrow <= wide ->
  (isEoutStopDecrease Eout epoch wide = Some true ->
   isEoutStopDecrease Eout epoch narrow = Some true) /\
  (isEoutStopDecrease Eout epoch narrow = Some false ->
   isEoutStopDecrease Eout epoch wide = Some false).
Proof.
  intros Hle. unfold isEoutStopDecrease. split.
  - apply isEoutStopDecrease_from_true_shorter. lia.
  - apply isEoutStopDecrease_from_false_longer. lia.
Qed.

Lemma isEoutStopDecrease_window_monotone_witness :
  2 <= 7 /\
  (isEoutStopDecrease [10; 9; 8; 9] 3 2 = Some false ->
   isEoutStopDecrease [10; 9; 8; 9] 3 7 = Some false).
Proof.
  assert (H : 2 <= 7) by lia.
  split; [exact H|].
  exact (proj2 (isEoutStopDecrease_window_monotone [10; 9; 8; 9] 3 2 7 H)).
Defined.

(** X4: on a history that never increases, the function returns [true] at
    every recorded epoch for every window that reaches no further back than
    epoch 0. *)
Theorem isEoutStopDecrease_non_increasing_history Eout epoch nNonIncEpoch :
  non_increasingb Eout = true ->
  0 <= epoch < Vec.size Eout -> Vec.size Eout < SizeT.modulus ->
  0 <= nNonIncEpoch <= epoch + 1 ->
  isEoutStopDecrease Eout epoch nNonIncEpoch = Some true.
Proof.
  intros Hs Hep Hm Hn.
  destruct (isEoutStopDecrease_in_window Eout epoch nNonIncEpoch Hep Hm Hn) as [b [Hb Hiff]].
  rewrite Hb. f_equal. apply Hiff. intros i Hi Hgt.
  destruct (at_in_bounds Eout epoch Hep) as [cur Hcur].
  destruct (at_in_bounds Eout (epoch - i)) as [old Hold]; [lia|].
  exists cur, old. repeat split; auto.
  apply (non_increasingb_at Eout (epoch - i) epoch old cur Hs); [lia|exact Hold|exact Hcur].
Qed.

Lemma isEoutStopDecrease_non_increasing_history_witness :
  non_increasingb [12; 10; 10; 7; 7] = true /\
  0 <= 4 < Vec.size [12; 10; 10; 7; 7] /\ Vec.size [12; 10; 10; 7; 7] < SizeT.modulus /\
  0 <= 5 <= 4 + 1 /\
  isEoutStopDecrease [12; 10; 10; 7; 7] 4 5 = Some true.
Proof.
  assert (H0 : non_increasingb [12; 10; 10; 7; 7] = true) by reflexivity.
  assert (H1 : 0 <= 4 < Vec.size [12; 10; 10; 7; 7]) by (unfold Vec.size; simpl; lia).
  assert (H2 : Vec.size [12; 10; 10; 7; 7] < SizeT.modulus) by reflexivity.
  assert (H3 : 0 <= 5 <= 4 + 1) by lia.
  split; [exact H0|]. split; [exact H1|]. split; [exact H2|]. split; [exact H3|].
  exact (isEoutStopDecrease_non_increasing_history [12; 10; 10; 7; 7] 4 5 H0 H1 H2 H3).
Defined.


(** * Further properties of [dnn_predict] and [dnn_train] *)

Lemma wrap_in_range z : 0 <= SizeT.wrap z < SizeT.modulus.
Proof. unfold SizeT.wrap. apply Z.mod_pos_bound. reflexivity. Qed.

Lemma wrap_add_wrap a b : SizeT.wrap (SizeT.wrap a + b) = SizeT.wrap (a + b).
Proof. unfold SizeT.wrap. apply Zplus_mod_idemp_l. Qed.

Section PredictFacts.

Context {C : Collaborators}.

Lemma dnn_predict_fold dnn data m :
  forall l acc,
    fst (fold_left (dnn_predict_batch dnn data m) l acc) =
      match l with
      | [] => fst acc
      | _ => SizeT.wrap (fst acc + fold_right Z.add 0 (map (batch_errors dnn data m) l))
      end /\
    snd (fold_left (dnn_predict_batch dnn data m) l acc) =
      snd acc ++ repeat (EvZeroOneError m) (List.length l).
Proof.
  induction l as [|itr l IH]; intros acc.
  - simpl. now rewrite app_nil_r.
  - cbn [fold_left]. destruct (IH (dnn_predict_batch dnn data m acc itr)) as [Hf Hs].
    rewrite Hf, Hs. split.
    + simpl fst. unfold SizeT.add. fold (batch_errors dnn data m itr).
      destruct l as [|itr' l].
      * simpl. f_equal. lia.
      * rewrite wrap_add_wrap. f_equal. simpl. lia.
    + simpl. now rewrite <- app_assoc.
Qed.

Lemma dnn_predict_value dnn data m :
  fst (dnn_predict dnn data m) =
    SizeT.wrap (fold_right Z.add 0
                  (map (batch_errors dnn data m) (Batches 2048 (DataSet_size data)))) /\
  snd (dnn_predict dnn data m) =
    repeat (EvZeroOneError m) (List.length (Batches 2048 (DataSet_size data))).
Proof.
  unfold dnn_predict.
  destruct (dnn_predict_fold dnn data m (Batches 2048 (DataSet_size data)) (0, []))
    as [Hf Hs].
  rewrite Hf, Hs. split; [|reflexivity].
  destruct (Batches 2048 (DataSet_size data)); reflexivity.
Qed.

Lemma dnn_predict_in_range dnn data m :
  0 <= fst (dnn_predict dnn data m) < SizeT.modulus.
Proof. rewrite (proj1 (dnn_predict_value dnn data m)). apply wrap_in_range. Qed.

End PredictFacts.

(** X5: [dnn_predict] returns the sum of the counts that [zeroOneError] gives
    for the evaluation batches of 2048 rows, reduced modulo 2^64 (so a value
    of [size_t], 0 when there is no batch), and it calls [zeroOneError] once
    per batch with the error measure it was given and does nothing else. *)
Theorem dnn_predict_sums_batches {C : Collaborators}
  (dnn : DNN) (data : DataSet) (m : ERROR_MEASURE) :
  fst (dnn_predict dnn data m) =
    SizeT.wrap (fold_right Z.add 0
                  (map (batch_errors dnn data m) (Batches 2048 (DataSet_size data)))) /\
  0 <= fst (dnn_predict dnn data m) < SizeT.modulus /\
  snd (dnn_predict dnn data m) =
    repeat (EvZeroOneError m) (List.length (Batches 2048 (DataSet_size data))).
Proof.
  destruct (dnn_predict_value dnn data m) as [Hf Hs].
  split; [exact Hf|]. split; [apply dnn_predict_in_range|exact Hs].
Qed.

Section LoopFacts.

Context {C : Collaborators}.

Variables (train valid : DataSet) (batchSize : Z) (m : ERROR_MEASURE).
Variables (lr : F32.t) (nTrain nValid : Z).

Local Abbreviation batch := (train_batch train m lr).
Local Abbreviation evaluate := (evaluate_epoch train valid batchSize m lr nTrain).
Local Abbreviation decide := (decide_epoch nTrain nValid).
Local Abbreviation body := (epoch_body train valid batchSize m lr nTrain nValid).
Local Abbreviation loop := (epoch_loop train valid batchSize m lr nTrain nValid).

(** How the loop is left: the epoch counter and the length of the history. *)
Lemma epoch_loop_exit :
  forall todo st,
    Vec.size (st_Eout st) = st_epoch st ->
    st_epoch st + Z.of_nat todo < SizeT.modulus ->
    match fst (loop todo st) with
    | EXHAUSTED =>
        st_epoch (snd (loop todo st)) = st_epoch st + Z.of_nat todo /\
        Vec.size (st_Eout (snd (loop todo st))) = st_epoch (snd (loop todo st))
    | _ =>
        st_epoch st <= st_epoch (snd (loop todo st)) < st_epoch st + Z.of_nat todo /\
        Vec.size (st_Eout (snd (loop todo st))) = st_epoch (snd (loop todo st)) + 1
    end.
Proof.
  induction todo as [|todo IH]; intros st Hsz Hm.
  - simpl. split; [lia|exact Hsz].
  - cbn [epoch_loop].
    destruct (epoch_body_Eout train valid batchSize m lr nTrain nValid st) as [HE Hep].
    assert (H0 : 0 <= st_epoch st) by (rewrite <- Hsz; unfold Vec.size; lia).
    destruct (body st) as [[| |] s1] eqn:E; simpl in HE, Hep.
    + assert (Hn : st_epoch (next_epoch s1) = st_epoch st + 1).
      { unfold next_epoch. simpl. rewrite Hep. apply incr_no_carry; lia. }
      assert (Hs : Vec.size (st_Eout (next_epoch s1)) = st_epoch (next_epoch s1)).
      { rewrite Hn. unfold next_epoch. simpl. rewrite HE, size_push_back. lia. }
      specialize (IH (next_epoch s1) Hs ltac:(lia)).
      destruct (fst (loop todo (next_epoch s1))); rewrite Hn in IH; lia.
    + simpl. rewrite HE, size_push_back. lia.
    + simpl. rewrite HE, size_push_back. lia.
Qed.

(** The number of update steps among the events of the loop. *)
Lemma decide_epoch_no_update st :
  exists evs, st_out (snd (decide st)) = st_out st ++ evs /\
              filter is_backPropagate evs = [].
Proof.
  destruct (decide_epoch_frame nTrain nValid st) as [_ [_ [_ [evs [Hout Hev]]]]].
  exists evs. split; [exact Hout|].
  clear Hout. induction Hev as [|e evs He _ IH]; [reflexivity|].
  simpl. rewrite IH. destruct e; simpl in He; try contradiction; reflexivity.
Qed.

Lemma epoch_loop_updates :
  forall todo st, exists evs,
    st_out (snd (loop todo st)) = st_out st ++ evs /\
    Z.of_nat (List.length (filter is_backPropagate evs)) =
      (Vec.size (st_Eout (snd (loop todo st))) - Vec.size (st_Eout st)) *
      Z.of_nat (List.length (Batches batchSize nTrain)).
Proof.
  induction todo as [|todo IH]; intros st.
  - exists []. simpl. rewrite app_nil_r. split; [reflexivity|lia].
  - cbn [epoch_loop].
    destruct (evaluate_epoch_out train valid batchSize m lr nTrain st) as [e1 [H1 [_ N1]]].
    destruct (decide_epoch_no_update (evaluate st)) as [e2 [H2 N2]].
    destruct (epoch_body_Eout train valid batchSize m lr nTrain nValid st) as [HE _].
    assert (Hbody : st_out (snd (body st)) = st_out st ++ (e1 ++ e2)).
    { unfold epoch_body. now rewrite H2, H1, app_assoc. }
    assert (Nbody : List.length (filter is_backPropagate (e1 ++ e2)) =
                    List.length (Batches batchSize nTrain)).
    { rewrite filter_app, length_app, N1, N2. simpl. lia. }
    destruct (body st) as [[| |] s1] eqn:E; simpl in HE, Hbody.
    + destruct (IH (next_epoch s1)) as [e3 [H3 N3]].
      exists ((e1 ++ e2) ++ e3). split.
      * rewrite H3. change (st_out (next_epoch s1)) with (st_out s1).
        rewrite Hbody, <- !app_assoc. reflexivity.
      * rewrite filter_app, length_app, Nat2Z.inj_add, N3, Nbody.
        change (st_Eout (next_epoch s1)) with (st_Eout s1).
        rewrite HE, size_push_back. lia.
    + exists (e1 ++ e2). simpl. split; [exact Hbody|].
      rewrite Nbody, HE, size_push_back. lia.
    + exists (e1 ++ e2). simpl. split; [exact Hbody|].
      rewrite Nbody, HE, size_push_back. lia.
Qed.

End LoopFacts.

(** A window of at most one epoch makes the test vacuous at every recorded
    epoch. *)
Lemma isEoutStopDecrease_narrow Eout epoch nNonIncEpoch :
  0 <= epoch < Vec.size Eout -> Vec.size Eout < SizeT.modulus -> nNonIncEpoch <= 1 ->
  isEoutStopDecrease Eout epoch nNonIncEpoch = Some true.
Proof.
  intros Hep Hm Hn.
  destruct (Z_le_gt_dec nNonIncEpoch 0) as [H0|H1].
  - unfold isEoutStopDecrease. replace (Z.to_nat nNonIncEpoch) with O by lia. reflexivity.
  - destruct (isEoutStopDecrease_in_window Eout epoch nNonIncEpoch Hep Hm) as [b [Hb Hiff]];
      [lia|].
    rewrite Hb. f_equal. apply Hiff. intros i Hi Hgt.
    replace i with 0 by lia. rewrite Z.sub_0_r.
    destruct (at_in_bounds Eout epoch Hep) as [cur Hcur].
    exists cur, cur. repeat split; auto. lia.
Qed.

Lemma at_In v i x : Vec.at_ v i = Some x -> In x v.
Proof.
  unfold Vec.at_. destruct ((0 <=? i) && (i <? Vec.size v)); [|discriminate].
  apply nth_error_In.
Qed.

(** ** Division by an empty validation set *)

Lemma of_Z_nonneg_shape z :
  0 <= z ->
  F32.of_Z z = S754_nan \/ F32.of_Z z = S754_zero false \/
  F32.of_Z z = S754_infinity false \/ exists mz ez, F32.of_Z z = S754_finite false mz ez.
Proof.
  intros Hz. unfold F32.of_Z, binary_normalize.
  destruct z as [|p|p]; [auto| |lia].
  unfold binary_round.
  destruct (shl_align p 0 _) as [mz ez].
  unfold binary_round_aux.
  destruct (shr_fexp F32.prec F32.emax (Z.pos mz) ez loc_Exact) as [mrs' e'].
  destruct (shr_fexp F32.prec F32.emax _ e' loc_Exact) as [mrs'' e''].
  destruct (shr_m mrs'') as [|q|q]; [auto| |auto].
  destruct (e'' <=? F32.emax - F32.prec); [|auto].
  right. right. right. now exists q, e''.
Qed.

Lemma accuracy_of_nothing eout x :
  0 <= eout -> F32.ltb x (accuracy eout 0) = false.
Proof.
  intros He. unfold accuracy.
  change (F32.of_Z 0) with (S754_zero false).
  change F32.one with (S754_finite false 8388608 (-23)).
  destruct (of_Z_nonneg_shape eout He) as [H|[H|[H|[mz [ez H]]]]]; rewrite H;
    destruct x as [[|]|[|]| |[|] mx ex]; reflexivity.
Qed.

Section RunFacts.

Context {C : Collaborators}.

Variables (train valid : DataSet) (batchSize : Z) (m : ERROR_MEASURE).
Variables (lr : F32.t) (nTrain nValid : Z).

Local Abbreviation batch := (train_batch train m lr).
Local Abbreviation evaluate := (evaluate_epoch train valid batchSize m lr nTrain).
Local Abbreviation decide := (decide_epoch nTrain nValid).
Local Abbreviation body := (epoch_body train valid batchSize m lr nTrain nValid).
Local Abbreviation loop := (epoch_loop train valid batchSize m lr nTrain nValid).

Lemma train_batch_fold_patience :
  keeps_patience ->
  forall l acc,
    nNonIncEpoch (getConfig (fst (fold_left batch l acc))) =
    nNonIncEpoch (getConfig (fst acc)).
Proof.
  intros [Hff [Hbp _]]. induction l as [|itr l IH]; intros acc; [reflexivity|].
  cbn [fold_left]. rewrite IH. unfold train_batch. cbn [fst]. now rewrite Hbp, Hff.
Qed.

Lemma evaluate_epoch_patience st :
  keeps_patience ->
  nNonIncEpoch (getConfig (st_dnn (evaluate st))) = nNonIncEpoch (getConfig (st_dnn st)).
Proof.
  intros Hk. unfold evaluate_epoch, train_batches. cbn [st_dnn].
  now rewrite train_batch_fold_patience.
Qed.

Lemma decide_epoch_defined st :
  keeps_patience ->
  0 <= st_epoch st < Vec.size (st_Eout st) -> Vec.size (st_Eout st) < SizeT.modulus ->
  nNonIncEpoch (getConfig (st_dnn st)) <= 1 ->
  fst (decide st) <> Undefined /\
  nNonIncEpoch (getConfig (st_dnn (snd (decide st)))) = nNonIncEpoch (getConfig (st_dnn st)).
Proof.
  intros [_ [_ Hadj]] Hep Hm Hn. unfold decide_epoch.
  destruct (F32.ltb (accuracy (st_Ein st) nTrain) F32.zero).
  { split; [discriminate|reflexivity]. }
  destruct (at_in_bounds _ _ Hep) as [eout ->].
  destruct (F32.ltb _ (accuracy eout nValid)).
  - rewrite (isEoutStopDecrease_narrow _ _ _ Hep Hm Hn). split; [discriminate|reflexivity].
  - split; [discriminate|]. cbn [snd st_dnn add_out]. apply Hadj.
Qed.

Lemma epoch_loop_defined :
  keeps_patience ->
  forall todo st,
    Vec.size (st_Eout st) = st_epoch st ->
    st_epoch st + Z.of_nat todo < SizeT.modulus ->
    nNonIncEpoch (getConfig (st_dnn st)) <= 1 ->
    fst (loop todo st) <> UNDEFINED.
Proof.
  intros Hk. induction todo as [|todo IH]; intros st Hsz Hm Hn; [discriminate|].
  cbn [epoch_loop].
  destruct (epoch_body_Eout train valid batchSize m lr nTrain nValid st) as [HE Hep].
  assert (H0 : 0 <= st_epoch st) by (rewrite <- Hsz; unfold Vec.size; lia).
  assert (Hsz1 : Vec.size (st_Eout (evaluate st)) = st_epoch st + 1).
  { destruct (evaluate_epoch_Eout train valid batchSize m lr nTrain st) as [HE' _].
    rewrite HE', size_push_back. lia. }
  destruct (decide_epoch_defined (evaluate st) Hk) as [Hdef Hpat].
  { destruct (evaluate_epoch_Eout train valid batchSize m lr nTrain st) as [_ [Hep' _]].
    rewrite Hep', Hsz1. lia. }
  { rewrite Hsz1. lia. }
  { rewrite evaluate_epoch_patience by exact Hk. exact Hn. }
  rewrite evaluate_epoch_patience in Hpat by exact Hk.
  unfold epoch_body in *.
  destruct (decide (evaluate st)) as [[| |] s1] eqn:E; simpl in HE, Hep, Hdef, Hpat.
  - apply IH.
    + change (st_Eout (next_epoch s1)) with (st_Eout s1).
      unfold next_epoch. cbn [st_epoch]. rewrite HE, size_push_back, Hep.
      rewrite incr_no_carry by lia. lia.
    + unfold next_epoch. cbn [st_epoch]. rewrite Hep, incr_no_carry by lia. lia.
    + change (st_dnn (next_epoch s1)) with (st_dnn s1). lia.
  - discriminate.
  - congruence.
Qed.

(** With an empty validation set the test of line 175 fails in every epoch. *)
Lemma epoch_loop_no_validation :
  nValid = 0 ->
  forall todo st,
    Forall (fun e => 0 <= e) (st_Eout st) ->
    fst (loop todo st) <> CONVERGED.
Proof.
  intros HnV. induction todo as [|todo IH]; intros st Hpos; [discriminate|].
  cbn [epoch_loop].
  destruct (epoch_body_Eout train valid batchSize m lr nTrain nValid st) as [HE _].
  assert (Hpos1 : Forall (fun e => 0 <= e) (st_Eout (evaluate st))).
  { destruct (evaluate_epoch_Eout train valid batchSize m lr nTrain st) as [HE' _].
    rewrite HE'. unfold Vec.push_back. apply Forall_app. split; [exact Hpos|].
    constructor; [|constructor]. apply dnn_predict_in_range. }
  unfold epoch_body in *.
  destruct (decide (evaluate st)) as [[| |] s1] eqn:E; simpl in HE.
  - apply IH. change (st_Eout (next_epoch s1)) with (st_Eout s1).
    destruct (decide_epoch_frame nTrain nValid (evaluate st)) as [HE2 _].
    rewrite E in HE2. simpl in HE2. now rewrite HE2.
  - exfalso. destruct (decide_epoch_Break nTrain nValid _ _ E) as [eout [Hat [_ [Hacc _]]]].
    rewrite HnV, accuracy_of_nothing in Hacc; [discriminate|].
    apply at_In in Hat. rewrite Forall_forall in Hpos1. now apply Hpos1.
  - discriminate.
Qed.

End RunFacts.

Lemma show_summary_defined {C : Collaborators} (train valid : DataSet) (st : loop_state) :
  (0 < Vec.size (st_Eout st) ->
   exists last,
     show_summary train valid st =
     Some (add_out st [EvEpochsInTotal (st_epoch st); EvElapsed;
                       EvShowAccuracy (st_Ein st) (DataSet_size train);
                       EvShowAccuracy last (DataSet_size valid)])) /\
  (Vec.size (st_Eout st) = 0 -> show_summary train valid st = None).
Proof.
  unfold show_summary, Vec.back. split; intros H.
  - destruct (at_in_bounds (st_Eout st) (Vec.size (st_Eout st) - 1)) as [last ->]; [lia|].
    now exists last.
  - rewrite H. unfold Vec.at_. reflexivity.
Qed.

Lemma sample_keeps_patience (config0 : Config) (penalty : Z) :
  @keeps_patience (Sample.collaborators config0 penalty).
Proof. repeat split. Qed.



(** X7: when the model's own methods leave the patience window alone and the
    window is at most 1, [dnn_train] subscripts nothing outside the history
    in any epoch; its behaviour is undefined exactly when [maxEpoch] is 0,
    where the summary calls [back()] on the empty history. *)
Theorem dnn_train_defined_with_narrow_window {C : Collaborators}
  (dnn : DNN) (train valid : DataSet) (batchSize : Z) (m : ERROR_MEASURE)
  (out : list event) :
  keeps_patience ->
  nNonIncEpoch (getConfig dnn) <= 1 ->
  0 <= maxEpoch (getConfig dnn) < SizeT.modulus ->
  (fst (dnn_train dnn train valid batchSize m out) = UNDEFINED <->
   maxEpoch (getConfig dnn) = 0).
Proof.
  intros Hk Hn Hmax.
  pose proof (epoch_loop_exit train valid batchSize m (effective_learning_rate dnn batchSize)
                (DataSet_size train) (DataSet_size valid)
                (Z.to_nat (maxEpoch (getConfig dnn))) (initial_state dnn out)
                eq_refl) as Hexit.
  cbn [initial_state st_epoch] in Hexit. rewrite Z2Nat.id in Hexit by lia.
  specialize (Hexit ltac:(lia)).
  pose proof (epoch_loop_defined train valid batchSize m (effective_learning_rate dnn batchSize)
                (DataSet_size train) (DataSet_size valid) Hk
                (Z.to_nat (maxEpoch (getConfig dnn))) (initial_state dnn out)
                eq_refl) as Hdef.
  cbn [initial_state st_epoch st_dnn] in Hdef. rewrite Z2Nat.id in Hdef by lia.
  specialize (Hdef ltac:(lia) Hn).
  unfold dnn_train, run_epochs.
  destruct (epoch_loop _ _ _ _ _ _ _ _ _) as [how st]. simpl in Hexit, Hdef.
  destruct (show_summary_defined train valid st) as [Hsome Hnone].
  destruct how; [| |congruence].
  - destruct Hexit as [Hep Hsz].
    destruct (Z.eq_dec (maxEpoch (getConfig dnn)) 0) as [H0|H0].
    + rewrite Hnone by lia. simpl. tauto.
    + destruct Hsome as [last ->]; [lia|]. simpl. split; [discriminate|lia].
  - destruct Hsome as [last ->]; [lia|]. simpl. split; [discriminate|lia].
Qed.

Lemma dnn_train_defined_with_narrow_window_witness :
  @keeps_patience Sample.proper /\
  nNonIncEpoch (@getConfig Sample.proper (Sample.config0 1, 0)) <= 1 /\
  0 <= maxEpoch (@getConfig Sample.proper (Sample.config0 1, 0)) < SizeT.modulus /\
  (fst (dnn_train (C := Sample.proper) (Sample.config0 1, 0)
          (Sample.clean "abcd") (Sample.clean "ef") 2 CROSS_ENTROPY []) = UNDEFINED <->
   maxEpoch (@getConfig Sample.proper (Sample.config0 1, 0)) = 0).
Proof.
  assert (H1 : @keeps_patience Sample.proper) by apply sample_keeps_patience.
  assert (H2 : nNonIncEpoch (@getConfig Sample.proper (Sample.config0 1, 0)) <= 1)
    by discriminate.
  assert (H3 : 0 <= maxEpoch (@getConfig Sample.proper (Sample.config0 1, 0))
               < SizeT.modulus) by (split; [discriminate|reflexivity]).
  split; [exact H1|]. split; [exact H2|]. split; [exact H3|].
  exact (dnn_train_defined_with_narrow_window (C := Sample.proper) (Sample.config0 1, 0)
           (Sample.clean "abcd") (Sample.clean "ef") 2 CROSS_ENTROPY [] H1 H2 H3).
Defined.

(** X8: in every pass through the loop body the learning-rate hook is called
    exactly once, with the training accuracy of that epoch, when the epoch is
    neither skipped for a negative accuracy nor the one that stops the loop;
    in a skipped epoch, in the stopping epoch and when the stopping test is
    undefined it is not called and the model is as the mini-batches left
    it. *)
Theorem adjustLearningRate_once_per_full_epoch {C : Collaborators}
  (train valid : DataSet) (batchSize : Z) (m : ERROR_MEASURE) (lr : F32.t)
  (nTrain nValid : Z) (st : loop_state) :
  exists evs,
    st_out (snd (epoch_body train valid batchSize m lr nTrain nValid st)) =
      st_out (evaluate_epoch train valid batchSize m lr nTrain st) ++ evs /\
    if match fst (epoch_body train valid batchSize m lr nTrain nValid st) with
       | Next =>
           negb (F32.ltb
                   (accuracy (st_Ein (evaluate_epoch train valid batchSize m lr nTrain st))
                             nTrain) F32.zero)
       | _ => false
       end
    then
      filter is_adjustLearningRate evs =
        [EvAdjustLearningRate
           (accuracy (st_Ein (evaluate_epoch train valid batchSize m lr nTrain st)) nTrain)] /\
      st_dnn (snd (epoch_body train valid batchSize m lr nTrain nValid st)) =
        adjustLearningRate
          (st_dnn (evaluate_epoch train valid batchSize m lr nTrain st))
          (accuracy (st_Ein (evaluate_epoch train valid batchSize m lr nTrain st)) nTrain)
    else
      filter is_adjustLearningRate evs = [] /\
      st_dnn (snd (epoch_body train valid batchSize m lr nTrain nValid st)) =
        st_dnn (evaluate_epoch train valid batchSize m lr nTrain st).
Proof.
  unfold epoch_body.
  set (s := evaluate_epoch train valid batchSize m lr nTrain st).
  unfold decide_epoch.
  destruct (F32.ltb (accuracy (st_Ein s) nTrain) F32.zero) eqn:Hneg.
  { exists [EvMarker]. simpl. auto. }
  destruct (Vec.at_ (st_Eout s) (st_epoch s)) as [eout|].
  2:{ exists []. simpl. rewrite app_nil_r. auto. }
  destruct (F32.ltb _ (accuracy eout nValid)).
  - destruct (isEoutStopDecrease _ _ _) as [[|]|].
    + eexists [_; _]. simpl. auto.
    + eexists [_; _; _]. cbn [fst snd st_out st_dnn add_out negb].
      rewrite <- app_assoc. simpl. auto.
    + eexists [_; _]. simpl. auto.
  - eexists [_; _]. cbn [fst snd st_out st_dnn add_out negb].
    rewrite <- app_assoc. simpl. auto.
Qed.

(** X10: with an empty validation set ([valid.size()] is 0) the run never
    stops early: the validation accuracy [1 - Eout[epoch]/0] is a NaN or
    minus infinity, which is not greater than any [minValidAccuracy]. *)
Theorem no_validation_set_never_converges {C : Collaborators}
  (dnn : DNN) (train valid : DataSet) (batchSize : Z) (m : ERROR_MEASURE)
  (out : list event) :
  DataSet_size valid = 0 ->
  fst (dnn_train dnn train valid batchSize m out) <> CONVERGED.
Proof.
  intros Hv. unfold dnn_train, run_epochs.
  pose proof (epoch_loop_no_validation train valid batchSize m
                (effective_learning_rate dnn batchSize)
                (DataSet_size train) (DataSet_size valid) Hv
                (Z.to_nat (maxEpoch (getConfig dnn))) (initial_state dnn out)
                (Forall_nil _)) as H.
  destruct (epoch_loop _ _ _ _ _ _ _ _ _) as [how st]. simpl in H.
  destruct how; [|congruence|discriminate].
  destruct (show_summary train valid st); discriminate.
Qed.

Lemma no_validation_set_never_converges_witness :
  @DataSet_size Sample.proper [] = 0 /\
  fst (dnn_train (C := Sample.proper) (Sample.config0 1, 0)
         (Sample.clean "abcd") [] 2 CROSS_ENTROPY []) <> CONVERGED.
Proof.
  assert (H : @DataSet_size Sample.proper [] = 0) by reflexivity.
  split; [exact H|].
  exact (no_validation_set_never_converges (C := Sample.proper) (Sample.config0 1, 0)
           (Sample.clean "abcd") [] 2 CROSS_ENTROPY [] H).
Defined.

(** * Further properties of [main] *)

Lemma string_length_append (s1 s2 : string) :
  String.length (s1 ++ s2) = (String.length s1 + String.length s2)%nat.
Proof. induction s1 as [|a s1 IH]; simpl; [reflexivity|now rewrite IH]. Qed.

Lemma substring_whole (s : string) : substring 0 (String.length s) s = s.
Proof. induction s as [|a s IH]; simpl; [reflexivity|now rewrite IH]. Qed.

Lemma substring_after (dir : string) (c : ascii) (base : string) :
  substring (String.length dir + 1) (String.length base) (dir ++ String c base) = base.
Proof.
  induction dir as [|a dir IH]; simpl.
  - apply substring_whole.
  - exact IH.
Qed.

Lemma find_last_of_from_absent (c : ascii) :
  forall s pos found, has_char c s = false -> find_last_of_from s c pos found = found.
Proof.
  induction s as [|a s IH]; intros pos found H; [reflexivity|].
  simpl in H. apply orb_false_iff in H. destruct H as [Ha Hs].
  simpl. rewrite Ha. now apply IH.
Qed.

Lemma find_last_of_from_last (c : ascii) (base : string) :
  has_char c base = false ->
  forall dir pos found,
    find_last_of_from (dir ++ String c base) c pos found =
    pos + Z.of_nat (String.length dir).
Proof.
  intros Hb. induction dir as [|a dir IH]; intros pos found.
  - simpl. rewrite Ascii.eqb_refl, find_last_of_from_absent by exact Hb. lia.
  - cbn [append find_last_of_from String.length]. rewrite IH. lia.
Qed.

(** X11: the name under which the model is saved when none is given.  For a
    training file [dir/base] it is computed from [base], the part after the
    last ['/']; for a training file without any ['/'], [find_last_of]
    returns [npos], [npos + 1] wraps to 0 and the part is the whole name. *)
Theorem default_model_name_is_basename (dir base : string) :
  has_char "/" base = false ->
  substr base (SizeT.add (find_last_of base "/") 1) = base /\
  (Z.of_nat (String.length (dir ++ String "/" base)) < SizeT.modulus ->
   substr (dir ++ String "/" base)
          (SizeT.add (find_last_of (dir ++ String "/" base) "/") 1) = base).
Proof.
  intros Hb. split.
  - unfold find_last_of. rewrite find_last_of_from_absent by exact Hb.
    replace (SizeT.add npos 1) with 0 by reflexivity.
    unfold substr. simpl Z.to_nat. rewrite Nat.sub_0_r. apply substring_whole.
  - intros Hlen. unfold find_last_of. rewrite find_last_of_from_last by exact Hb.
    rewrite string_length_append in Hlen. cbn [String.length] in Hlen.
    unfold SizeT.add, SizeT.wrap. rewrite Z.mod_small by lia.
    unfold substr. rewrite string_length_append. cbn [String.length].
    replace (Z.to_nat (0 + Z.of_nat (String.length dir) + 1))
      with (String.length dir + 1)%nat by lia.
    replace (String.length dir + S (String.length base) - (String.length dir + 1))%nat
      with (String.length base) by lia.
    apply substring_after.
Qed.

Lemma default_model_name_is_basename_witness :
  has_char "/" "train3.dat" = false /\
  (Z.of_nat (String.length ("data/sets" ++ String "/" "train3.dat")) < SizeT.modulus ->
   substr ("data/sets" ++ String "/" "train3.dat")
          (SizeT.add (find_last_of ("data/sets" ++ String "/" "train3.dat") "/") 1) =
   "train3.dat"%string).
Proof.
  assert (H : has_char "/" "train3.dat" = false) by reflexivity.
  split; [exact H|].
  exact (proj2 (default_model_name_is_basename "data/sets" "train3.dat" H)).
Defined.

Section SaveFacts.

Context {C : Collaborators}.

Lemma loop_event_not_save lr m evs :
  Forall (loop_event lr m) evs -> existsb is_save evs = false.
Proof.
  induction 1 as [|e evs He _ IH]; [reflexivity|].
  simpl. rewrite IH.
  destruct e; simpl in He |- *; try reflexivity; destruct He as [He|He]; contradiction.
Qed.

Lemma dnn_train_no_save dnn train valid batchSize m out :
  exists evs,
    st_out (snd (dnn_train dnn train valid batchSize m out)) = out ++ evs /\
    existsb is_save evs = false.
Proof.
  unfold dnn_train, run_epochs.
  destruct (epoch_loop_out train valid batchSize m (effective_learning_rate dnn batchSize)
              (DataSet_size train) (DataSet_size valid)
              (Z.to_nat (maxEpoch (getConfig dnn))) (initial_state dnn out))
    as [evs [Hout Hev]].
  apply loop_event_not_save in Hev.
  destruct (epoch_loop _ _ _ _ _ _ _ _ _) as [how st]. simpl in Hout.
  assert (Hst : st_out st = out ++ EvTrainingBanner :: evs).
  { rewrite Hout. unfold initial_state. simpl. now rewrite <- app_assoc. }
  assert (Hsame : exists evs0, st_out st = out ++ evs0 /\ existsb is_save evs0 = false)
    by (eexists; split; [exact Hst|exact Hev]).
  assert (Hsum : forall st', show_summary train valid st = Some st' ->
            exists evs0, st_out st' = out ++ evs0 /\ existsb is_save evs0 = false).
  { unfold show_summary. intros st'.
    destruct (Vec.back (st_Eout st)) as [last|]; [|discriminate].
    intros H. injection H as <-. eexists. cbn [st_out add_out].
    rewrite Hst, <- app_assoc. split; [reflexivity|].
    rewrite existsb_app. simpl existsb at 1. rewrite Hev. reflexivity. }
  assert (Hhead : exists evs0,
            st_out (add_out st (summary_head train st)) = out ++ evs0 /\
            existsb is_save evs0 = false).
  { exists ((EvTrainingBanner :: evs) ++ summary_head train st).
    cbn [st_out add_out]. rewrite Hst, <- app_assoc. split; [reflexivity|].
    rewrite existsb_app. simpl existsb at 1. rewrite Hev. reflexivity. }
  destruct how; simpl; auto;
    destruct (show_summary train valid st) as [st'|] eqn:Es; simpl; auto.
Qed.

End SaveFacts.

Lemma sample_same_input_read :
  same_input_read
    (Sample.command_line "" "0")
    (mkCmdParser true
       (fun k => if k =? 4 then "extra"%string else Sample.arguments k)
       (Sample.options "train3.stat" "1")).
Proof.
  repeat split. intros name Hin. unfold options_used in Hin. simpl in Hin.
  repeat (destruct Hin as [<-|Hin]; [reflexivity|]). contradiction.
Qed.

(** X13: what [main] does is determined by the answer of [isOptionLegal], the
    three positional arguments and the values of ten options: [--input-dim],
    [--normalize], [--base], [-v], [--batch-size], [--learning-rate],
    [--variance], [--min-acc], [--max-epoch] and [--cache].  Two command lines
    that agree on these give the same run, whatever else they contain. *)
Theorem main_determined_by_input_read {C : Collaborators} (cmd1 cmd2 : CmdParser) :
  same_input_read cmd1 cmd2 -> main cmd1 = main cmd2.
Proof.
  intros [Hlegal [Hp1 [Hp2 [Hp3 Hopt]]]]. unfold main, main_config.
  rewrite Hlegal, Hp1, Hp2, Hp3.
  rewrite !(Hopt "--input-dim"%string), !(Hopt "--normalize"%string),
    !(Hopt "--base"%string), !(Hopt "-v"%string), !(Hopt "--batch-size"%string),
    !(Hopt "--learning-rate"%string), !(Hopt "--variance"%string),
    !(Hopt "--min-acc"%string), !(Hopt "--max-epoch"%string), !(Hopt "--cache"%string)
    by (unfold options_used; simpl; tauto).
  reflexivity.
Qed.

Lemma main_determined_by_input_read_witness :
  same_input_read
    (Sample.command_line "" "0")
    (mkCmdParser true
       (fun k => if k =? 4 then "extra"%string else Sample.arguments k)
       (Sample.options "train3.stat" "1")) /\
  main (C := Sample.proper) (Sample.command_line "" "0") =
  main (C := Sample.proper)
    (mkCmdParser true
       (fun k => if k =? 4 then "extra"%string else Sample.arguments k)
       (Sample.options "train3.stat" "1")).
Proof.
  split; [exact sample_same_input_read|].
  exact (main_determined_by_input_read (C := Sample.proper) _ _ sample_same_input_read).
Defined.

(** * The stopping policy beyond the recorded history *)

Lemma isEoutStopDecrease_from_split Eout epoch :
  forall k r i, 0 <= i -> i + Z.of_nat k < SizeT.modulus ->
    isEoutStopDecrease_from Eout epoch (k + r) i =
    match isEoutStopDecrease_from Eout epoch k i with
    | Some true => isEoutStopDecrease_from Eout epoch r (i + Z.of_nat k)
    | other => other
    end.
Proof.
  induction k as [|k IH]; intros r i Hi Hm.
  - simpl. now rewrite Z.add_0_r.
  - replace (S k + r)%nat with (S (k + r)) by lia.
    rewrite !isEoutStopDecrease_from_S, incr_no_carry by lia.
    replace (i + Z.of_nat (S k)) with (i + 1 + Z.of_nat k) by lia.
    destruct (0 <? SizeT.sub epoch i).
    + destruct (Vec.at_ Eout epoch) as [cur|]; [|reflexivity].
      destruct (Vec.at_ Eout (SizeT.sub epoch i)) as [old|]; [|reflexivity].
      destruct (old <? cur); [reflexivity|]. apply IH; lia.
    + apply IH; lia.
Qed.

(** X14: with a patience window wider than [epoch + 1] the function never
    returns [true].  It returns [false] when some recorded epoch after epoch 0
    has a smaller count than the current one, and otherwise goes on to
    subscript the history outside its bounds. *)
Theorem isEoutStopDecrease_beyond_history Eout epoch nNonIncEpoch :
  0 <= epoch < Vec.size Eout -> Vec.size Eout < SizeT.modulus ->
  epoch + 1 < nNonIncEpoch ->
  (spec_window_non_increasing Eout epoch (epoch + 1) ->
   isEoutStopDecrease Eout epoch nNonIncEpoch = None) /\
  (~ spec_window_non_increasing Eout epoch (epoch + 1) ->
   isEoutStopDecrease Eout epoch nNonIncEpoch = Some false).
Proof.
  intros Hep Hm Hn.
  destruct (isEoutStopDecrease_in_window Eout epoch (epoch + 1) Hep Hm) as [b [Hb Hiff]];
    [lia|].
  unfold isEoutStopDecrease in *.
  replace (Z.to_nat nNonIncEpoch)
    with (Z.to_nat (epoch + 1) + (Z.to_nat nNonIncEpoch - Z.to_nat (epoch + 1)))%nat by lia.
  rewrite isEoutStopDecrease_from_split by lia. rewrite Hb.
  split; intros H.
  - replace b with true by (symmetry; now apply Hiff).
    apply isEoutStopDecrease_from_past_epoch; try lia.
  - destruct b; [|reflexivity]. exfalso. apply H. now apply Hiff.
Qed.

Lemma isEoutStopDecrease_beyond_history_witness :
  0 <= 2 < Vec.size [7; 5; 5] /\ Vec.size [7; 5; 5] < SizeT.modulus /\ 2 + 1 < 6 /\
  (spec_window_non_increasing [7; 5; 5] 2 (2 + 1) ->
   isEoutStopDecrease [7; 5; 5] 2 6 = None).
Proof.
  assert (H1 : 0 <= 2 < Vec.size [7; 5; 5]) by (unfold Vec.size; simpl; lia).
  assert (H2 : Vec.size [7; 5; 5] < SizeT.modulus) by reflexivity.
  assert (H3 : 2 + 1 < 6) by lia.
  split; [exact H1|]. split; [exact H2|]. split; [exact H3|].
  exact (proj1 (isEoutStopDecrease_beyond_history [7; 5; 5] 2 6 H1 H2 H3)).
Defined.

(** * The mini-batches of an epoch, on the model and on the log *)

Section UpdateFacts.

Context {C : Collaborators}.

Variables (train valid : DataSet) (batchSize : Z) (m : ERROR_MEASURE).
Variables (lr : F32.t) (nTrain nValid : Z).

Lemma train_batch_fold_spec :
  forall l d out,
    fold_left (train_batch train m lr) l (d, out) =
    (fold_left (batch_update train m lr) l d, out ++ batch_events train m lr d l).
Proof.
  induction l as [|itr l IH]; intros d out.
  - simpl. now rewrite app_nil_r.
  - cbn [fold_left batch_events]. unfold train_batch at 2. cbn [fst snd].
    fold (batch_update train m lr d itr). rewrite IH, <- app_assoc. reflexivity.
Qed.

Lemma batch_events_rate :
  forall l d, Forall (rate_is lr) (batch_events train m lr d l) /\
              List.length (filter is_backPropagate (batch_events train m lr d l)) =
              List.length l /\
              existsb is_row_or_decision (batch_events train m lr d l) = false /\
              patience_windows (batch_events train m lr d l) = [].
Proof.
  induction l as [|itr l IH]; intros d.
  - simpl. repeat split. constructor.
  - cbn [batch_events]. destruct (IH (batch_update train m lr d itr)) as [Hr [Hn [Hd Hw]]].
    repeat split.
    + constructor; [exact I|]. constructor; [reflexivity|exact Hr].
    + simpl. now rewrite Hn.
    + simpl. exact Hd.
    + simpl. exact Hw.
Qed.

(** Lines 147-161 in one equation: the state that the mini-batches and the
    two evaluation passes leave. *)
Lemma evaluate_epoch_spec st :
  evaluate_epoch train valid batchSize m lr nTrain st =
  mkLoopState
    (fold_left (batch_update train m lr) (Batches batchSize nTrain) (st_dnn st))
    (fst (dnn_predict
            (fold_left (batch_update train m lr) (Batches batchSize nTrain) (st_dnn st))
            train m))
    (Vec.push_back (st_Eout st)
       (fst (dnn_predict
               (fold_left (batch_update train m lr) (Batches batchSize nTrain) (st_dnn st))
               valid m)))
    (st_epoch st)
    (st_out st ++
     batch_events train m lr (st_dnn st) (Batches batchSize nTrain) ++
     repeat (EvZeroOneError m)
            (List.length (Batches 2048 (DataSet_size train)) +
             List.length (Batches 2048 (DataSet_size valid)))).
Proof.
  unfold evaluate_epoch, train_batches. rewrite train_batch_fold_spec. cbn [fst snd].
  rewrite !(proj2 (dnn_predict_value _ _ m)), <- repeat_app, <- app_assoc.
  reflexivity.
Qed.

Lemma repeat_zeroOne_quiet n :
  existsb is_row_or_decision (repeat (EvZeroOneError m) n) = false /\
  filter is_backPropagate (repeat (EvZeroOneError m) n) = [] /\
  patience_windows (repeat (EvZeroOneError m) n) = [].
Proof. induction n as [|n IH]; simpl; auto. Qed.

(** What the second half of the body adds to the log holds no update step,
    and the model it leaves is the one it found or that one after the
    hook. *)
Lemma decide_epoch_model st :
  (st_dnn (snd (decide_epoch nTrain nValid st)) = st_dnn st \/
   st_dnn (snd (decide_epoch nTrain nValid st)) =
     adjustLearningRate (st_dnn st) (accuracy (st_Ein st) nTrain)) /\
  exists rest,
    st_out (snd (decide_epoch nTrain nValid st)) = st_out st ++ rest /\
    filter is_backPropagate rest = [] /\
    Forall (fun n => n = nNonIncEpoch (getConfig (st_dnn st))) (patience_windows rest).
Proof.
  unfold decide_epoch.
  destruct (F32.ltb (accuracy (st_Ein st) nTrain) F32.zero).
  { split; [now left|]. exists [EvMarker]. simpl. repeat split. constructor. }
  destruct (Vec.at_ (st_Eout st) (st_epoch st)) as [eout|].
  2:{ split; [now left|]. exists []. simpl. rewrite app_nil_r. repeat split. constructor. }
  destruct (F32.ltb _ (accuracy eout nValid)).
  - destruct (isEoutStopDecrease _ _ _) as [[|]|].
    + split; [now left|]. eexists [_; _]. simpl. repeat split. repeat constructor.
    + split; [now right|]. eexists [_; _; _]. cbn [snd st_out add_out].
      rewrite <- app_assoc. simpl. repeat split. repeat constructor.
    + split; [now left|]. eexists [_; _]. simpl. repeat split. repeat constructor.
  - split; [now right|]. eexists [_; _]. cbn [snd st_out add_out].
    rewrite <- app_assoc. simpl. repeat split. constructor.
Qed.

(** Every stopping check of the loop is given the patience window the
    model's configuration had on entry, when the model's methods leave it
    alone. *)
Lemma epoch_loop_windows :
  keeps_patience ->
  forall todo st, exists evs,
    st_out (snd (epoch_loop train valid batchSize m lr nTrain nValid todo st)) =
      st_out st ++ evs /\
    Forall (fun n => n = nNonIncEpoch (getConfig (st_dnn st))) (patience_windows evs) /\
    nNonIncEpoch (getConfig
      (st_dnn (snd (epoch_loop train valid batchSize m lr nTrain nValid todo st)))) =
    nNonIncEpoch (getConfig (st_dnn st)).
Proof.
  intros Hk. induction todo as [|todo IH]; intros st.
  - exists []. simpl. rewrite app_nil_r. repeat split. constructor.
  - cbn [epoch_loop]. unfold epoch_body.
    pose proof (evaluate_epoch_patience train valid batchSize m lr nTrain st Hk) as Hpat.
    destruct (decide_epoch_model (evaluate_epoch train valid batchSize m lr nTrain st))
      as [Hmodel [rest [Hout [_ Hw]]]].
    rewrite Hpat in Hw.
    assert (Hpat2 : nNonIncEpoch (getConfig (st_dnn (snd (decide_epoch nTrain nValid
                       (evaluate_epoch train valid batchSize m lr nTrain st))))) =
                    nNonIncEpoch (getConfig (st_dnn st))).
    { destruct Hmodel as [-> | ->]; [exact Hpat|].
      destruct Hk as [_ [_ Hadj]]. now rewrite Hadj. }
    rewrite evaluate_epoch_spec in Hout at 2. cbn [st_out] in Hout.
    set (upd := batch_events train m lr (st_dnn st) (Batches batchSize nTrain)) in *.
    set (evl := repeat (EvZeroOneError m) _) in *.
    assert (Hbody : Forall (fun n => n = nNonIncEpoch (getConfig (st_dnn st)))
                           (patience_windows (upd ++ evl ++ rest))).
    { unfold patience_windows in *. rewrite !flat_map_app.
      fold (patience_windows upd). fold (patience_windows evl).
      unfold upd. rewrite (proj2 (proj2 (proj2 (batch_events_rate _ _)))).
      unfold evl. rewrite (proj2 (proj2 (repeat_zeroOne_quiet _))). exact Hw. }
    destruct (decide_epoch nTrain nValid _) as [[| |] s1]; cbn [snd] in Hout, Hpat2.
    + destruct (IH (next_epoch s1)) as [e3 [H3 [W3 P3]]].
      change (st_dnn (next_epoch s1)) with (st_dnn s1) in W3, P3.
      change (st_out (next_epoch s1)) with (st_out s1) in H3.
      rewrite Hpat2 in W3, P3.
      exists ((upd ++ evl ++ rest) ++ e3). split; [|split; [|exact P3]].
      * rewrite H3, Hout, <- !app_assoc. reflexivity.
      * unfold patience_windows in *. rewrite flat_map_app. apply Forall_app. auto.
    + exists (upd ++ evl ++ rest). cbn [snd]. split; [|split; [exact Hbody|exact Hpat2]].
      rewrite Hout, <- !app_assoc. reflexivity.
    + exists (upd ++ evl ++ rest). cbn [snd]. split; [|split; [exact Hbody|exact Hpat2]].
      rewrite Hout, <- !app_assoc. reflexivity.
Qed.

End UpdateFacts.

Lemma evaluate_epoch_after_batches {C : Collaborators}
  (train valid : DataSet) (batchSize : Z) (m : ERROR_MEASURE) (lr : F32.t)
  (nTrain : Z) (st : loop_state) :
  evaluate_epoch train valid batchSize m lr nTrain st =
  mkLoopState
    (after_batches train batchSize m lr nTrain (st_dnn st))
    (fst (dnn_predict (after_batches train batchSize m lr nTrain (st_dnn st)) train m))
    (Vec.push_back (st_Eout st)
       (fst (dnn_predict (after_batches train batchSize m lr nTrain (st_dnn st)) valid m)))
    (st_epoch st)
    (st_out st ++ epoch_log train valid batchSize m lr nTrain (st_dnn st)).
Proof. apply evaluate_epoch_spec. Qed.

Lemma epoch_log_quiet {C : Collaborators}
  (train valid : DataSet) (batchSize : Z) (m : ERROR_MEASURE) (lr : F32.t)
  (nTrain : Z) (d : DNN) :
  existsb is_row_or_decision (epoch_log train valid batchSize m lr nTrain d) = false.
Proof.
  unfold epoch_log. rewrite existsb_app.
  rewrite (proj1 (proj2 (proj2 (batch_events_rate train m lr _ _)))).
  now rewrite (proj1 (repeat_zeroOne_quiet m _)).
Qed.

(** * The claims that rest on the facts above *)

(** C6: in an epoch whose training accuracy [1 - Ein/nTrain] is negative the
    body of the loop ends by [continue] in exactly this state: the model as
    the mini-batches left it, [Ein] and the history with the new
    out-of-sample count appended, the epoch counter unchanged, and a log that
    has grown by the calls of the mini-batches and of the two evaluation
    passes followed by the progress marker and nothing else (no summary row,
    no call of the stopping policy, no call of [adjustLearningRate]).  The
    loop then goes on from that state with the epoch counter incremented. *)
Theorem negative_train_accuracy_skips_epoch {C : Collaborators}
  (train valid : DataSet) (batchSize : Z) (m : ERROR_MEASURE) (lr : F32.t)
  (nTrain nValid : Z) (todo : nat) (st : loop_state) :
  F32.ltb
    (accuracy
       (fst (dnn_predict (after_batches train batchSize m lr nTrain (st_dnn st)) train m))
       nTrain)
    F32.zero = true ->
  epoch_body train valid batchSize m lr nTrain nValid st =
    (Next,
     mkLoopState
       (after_batches train batchSize m lr nTrain (st_dnn st))
       (fst (dnn_predict (after_batches train batchSize m lr nTrain (st_dnn st)) train m))
       (Vec.push_back (st_Eout st)
          (fst (dnn_predict (after_batches train batchSize m lr nTrain (st_dnn st)) valid m)))
       (st_epoch st)
       (st_out st ++ epoch_log train valid batchSize m lr nTrain (st_dnn st) ++ [EvMarker])) /\
  existsb is_row_or_decision
    (epoch_log train valid batchSize m lr nTrain (st_dnn st) ++ [EvMarker]) = false /\
  epoch_loop train valid batchSize m lr nTrain nValid (S todo) st =
    epoch_loop train valid batchSize m lr nTrain nValid todo
      (mkLoopState
         (after_batches train batchSize m lr nTrain (st_dnn st))
         (fst (dnn_predict (after_batches train batchSize m lr nTrain (st_dnn st)) train m))
         (Vec.push_back (st_Eout st)
            (fst (dnn_predict (after_batches train batchSize m lr nTrain (st_dnn st))
                              valid m)))
         (SizeT.incr (st_epoch st))
         (st_out st ++ epoch_log train valid batchSize m lr nTrain (st_dnn st) ++ [EvMarker])).
Proof.
  intros Hneg.
  assert (Hbody :
    epoch_body train valid batchSize m lr nTrain nValid st =
    (Next,
     mkLoopState
       (after_batches train batchSize m lr nTrain (st_dnn st))
       (fst (dnn_predict (after_batches train batchSize m lr nTrain (st_dnn st)) train m))
       (Vec.push_back (st_Eout st)
          (fst (dnn_predict (after_batches train batchSize m lr nTrain (st_dnn st)) valid m)))
       (st_epoch st)
       (st_out st ++ epoch_log train valid batchSize m lr nTrain (st_dnn st) ++ [EvMarker]))).
  { unfold epoch_body. rewrite evaluate_epoch_after_batches.
    unfold decide_epoch. cbn [st_Ein]. rewrite Hneg.
    unfold add_out. cbn [st_dnn st_Ein st_Eout st_epoch st_out].
    now rewrite <- app_assoc. }
  split; [exact Hbody|]. split.
  - rewrite existsb_app, epoch_log_quiet. reflexivity.
  - cbn [epoch_loop]. rewrite Hbody. reflexivity.
Qed.

Lemma negative_train_accuracy_skips_epoch_witness :
  F32.ltb
    (accuracy
       (fst (dnn_predict (C := Sample.overcounting)
               (after_batches (C := Sample.overcounting) (Sample.shifted "abcd") 2
                  CROSS_ENTROPY F32.one 4
                  (st_dnn (initial_state (C := Sample.overcounting) (Sample.config0 6, 0) [])))
               (Sample.shifted "abcd") CROSS_ENTROPY))
       4)
    F32.zero = true /\
  existsb is_row_or_decision
    (epoch_log (C := Sample.overcounting) (Sample.shifted "abcd") (Sample.shifted "ef") 2
       CROSS_ENTROPY F32.one 4
       (st_dnn (initial_state (C := Sample.overcounting) (Sample.config0 6, 0) []))
     ++ [EvMarker]) = false.
Proof.
  assert (Hneg :
    F32.ltb
      (accuracy
         (fst (dnn_predict (C := Sample.overcounting)
                 (after_batches (C := Sample.overcounting) (Sample.shifted "abcd") 2
                    CROSS_ENTROPY F32.one 4
                    (st_dnn (initial_state (C := Sample.overcounting) (Sample.config0 6, 0) [])))
                 (Sample.shifted "abcd") CROSS_ENTROPY))
         4)
      F32.zero = true) by (vm_compute; reflexivity).
  split; [exact Hneg|].
  exact (proj1 (proj2 (negative_train_accuracy_skips_epoch (C := Sample.overcounting)
           (Sample.shifted "abcd") (Sample.shifted "ef") 2 CROSS_ENTROPY F32.one 4 2 O
           (initial_state (C := Sample.overcounting) (Sample.config0 6, 0) []) Hneg))).
Defined.



Lemma main_unfold {C : Collaborators} (cmd : CmdParser) :
  isOptionLegal cmd = true ->
  main cmd =
    match main_training cmd with
    | (UNDEFINED, st) => UndefinedBehaviour (st_out st)
    | (_, st) => Returned (st_out st ++ [EvSave (st_dnn st) (main_model_out cmd)])
    end.
Proof. intros H. unfold main. rewrite H. reflexivity. Qed.

Lemma sample_stores_config (config0 : Config) (penalty : Z) :
  @stores_config (Sample.collaborators config0 penalty).
Proof. intros d c. reflexivity. Qed.

Lemma sample_cmd0_legal : isOptionLegal Sample.cmd0 = true.
Proof. reflexivity. Qed.

(** C4, as the code has it: [main] assigns the fields [variance],
    [learningRate], [minValidAccuracy] and [maxEpoch] of the [Config] from the
    options of the command line, hands the [Config] to the model with
    [setConfig] and trains that model; it does not assign [nNonIncEpoch],
    which keeps the value the declaration [Config config;] gave it.  So, for a
    model that returns the configuration it was given and whose methods leave
    the patience window alone, the configuration that [dnn_train] finds in the
    model has those four fields from the command line, and every stopping
    check of the run is given the window of the default construction. *)
Theorem main_patience_window_is_default {C : Collaborators} (cmd : CmdParser) :
  stores_config -> keeps_patience -> isOptionLegal cmd = true ->
  main cmd =
    match dnn_train (setConfig (DNN_load (positional cmd 2)) (main_config Config_default cmd))
            (fst (DataSet_split (main_data cmd) (arg_int (opt cmd "-v"))))
            (snd (DataSet_split (main_data cmd) (arg_int (opt cmd "-v"))))
            (arg_size_t (opt cmd "--batch-size")) CROSS_ENTROPY
            [EvSetCacheSize (arg_size_t (opt cmd "--cache"));
             EvShowSummary (main_data cmd);
             EvConfigPrint (main_config Config_default cmd)]
    with
    | (UNDEFINED, st) => UndefinedBehaviour (st_out st)
    | (_, st) => Returned (st_out st ++ [EvSave (st_dnn st) (main_model_out cmd)])
    end /\
  variance (getConfig (main_model cmd)) = arg_float (opt cmd "--variance") /\
  learningRate (getConfig (main_model cmd)) = arg_float (opt cmd "--learning-rate") /\
  minValidAccuracy (getConfig (main_model cmd)) = arg_float (opt cmd "--min-acc") /\
  maxEpoch (getConfig (main_model cmd)) = arg_size_t (opt cmd "--max-epoch") /\
  nNonIncEpoch (getConfig (main_model cmd)) = nNonIncEpoch Config_default /\
  Forall (fun n => n = nNonIncEpoch Config_default)
         (patience_windows (main_out (main cmd))).
Proof.
  intros Hstore Hk Hlegal.
  assert (Hcfg : getConfig (main_model cmd) = main_config Config_default cmd)
    by apply Hstore.
  split; [exact (main_unfold cmd Hlegal)|].
  rewrite Hcfg. repeat (split; [reflexivity|]).
  rewrite (main_unfold cmd Hlegal). unfold main_training, dnn_train, run_epochs.
  destruct (epoch_loop_windows
              (fst (DataSet_split (main_data cmd) (arg_int (opt cmd "-v"))))
              (snd (DataSet_split (main_data cmd) (arg_int (opt cmd "-v"))))
              (arg_size_t (opt cmd "--batch-size")) CROSS_ENTROPY
              (effective_learning_rate (main_model cmd) (arg_size_t (opt cmd "--batch-size")))
              (DataSet_size (fst (DataSet_split (main_data cmd) (arg_int (opt cmd "-v")))))
              (DataSet_size (snd (DataSet_split (main_data cmd) (arg_int (opt cmd "-v")))))
              Hk
              (Z.to_nat (maxEpoch (getConfig (main_model cmd))))
              (initial_state (main_model cmd)
                 [EvSetCacheSize (arg_size_t (opt cmd "--cache"));
                  EvShowSummary (main_data cmd);
                  EvConfigPrint (main_config Config_default cmd)]))
    as [evs [Hout [Hw _]]].
  cbn [initial_state st_dnn st_out] in Hout, Hw. rewrite Hcfg in Hw.
  change (nNonIncEpoch (main_config Config_default cmd))
    with (nNonIncEpoch Config_default) in Hw.
  destruct (epoch_loop _ _ _ _ _ _ _ _ _) as [how st]. cbn [snd] in Hout.
  assert (Hst : Forall (fun n => n = nNonIncEpoch Config_default)
                       (patience_windows (st_out st))).
  { rewrite Hout. unfold patience_windows in *. rewrite !flat_map_app. simpl.
    exact Hw. }
  assert (Hadd : forall tail, patience_windows tail = [] ->
            Forall (fun n => n = nNonIncEpoch Config_default)
                   (patience_windows (st_out st ++ tail))).
  { intros tail Ht. unfold patience_windows in *. rewrite flat_map_app, Ht, app_nil_r.
    exact Hst. }
  unfold show_summary.
  destruct how; [| |exact Hst];
    (destruct (Vec.back (st_Eout st)) as [last|];
     [cbn [main_out st_out add_out]; rewrite <- app_assoc; apply Hadd; reflexivity
     |cbn [main_out st_out add_out]; apply Hadd; reflexivity]).
Qed.

Lemma main_patience_window_is_default_witness :
  @stores_config Sample.wide /\ @keeps_patience Sample.wide /\
  isOptionLegal Sample.cmd0 = true /\
  nNonIncEpoch (getConfig (main_model (C := Sample.wide) Sample.cmd0)) =
  nNonIncEpoch (@Config_default Sample.wide).
Proof.
  assert (H1 : @stores_config Sample.wide) by apply sample_stores_config.
  assert (H2 : @keeps_patience Sample.wide) by apply sample_keeps_patience.
  split; [exact H1|]. split; [exact H2|]. split; [exact sample_cmd0_legal|].
  exact (proj1 (proj2 (proj2 (proj2 (proj2 (proj2
           (main_patience_window_is_default (C := Sample.wide) Sample.cmd0
              H1 H2 sample_cmd0_legal))))))).
Defined.

(** * Counting the update steps *)

Section CountFacts.

Variable C0 : Collaborators.

Variables (train valid : @DataSet C0) (batchSize : Z) (m : ERROR_MEASURE).
Variables (lr : F32.t) (nTrain nValid : Z).

Lemma counting_after_batches :
  forall (l : list (@Batch C0)) (d : @DNN (counting C0)),
    snd (fold_left (batch_update (C := counting C0) train m lr) l d) =
    snd d + Z.of_nat (List.length l).
Proof.
  induction l as [|itr l IH]; intros d.
  - simpl. lia.
  - cbn [fold_left List.length]. rewrite IH. unfold batch_update. cbn. lia.
Qed.

Lemma counting_epoch_body (st : @loop_state (counting C0)) :
  snd (st_dnn (snd (epoch_body (C := counting C0) train valid batchSize m lr
                      nTrain nValid st))) =
  snd (st_dnn st) + Z.of_nat (List.length (@Batches C0 batchSize nTrain)).
Proof.
  unfold epoch_body.
  destruct (decide_epoch_model (C := counting C0) nTrain nValid
              (evaluate_epoch (C := counting C0) train valid batchSize m lr nTrain st))
    as [Hmodel _].
  assert (Heval : snd (st_dnn (evaluate_epoch (C := counting C0) train valid batchSize m lr
                                  nTrain st)) =
                  snd (st_dnn st) + Z.of_nat (List.length (@Batches C0 batchSize nTrain))).
  { rewrite (evaluate_epoch_after_batches (C := counting C0)). cbn [st_dnn].
    unfold after_batches. apply counting_after_batches. }
  destruct Hmodel as [-> | ->]; [exact Heval|].
  cbn [adjustLearningRate counting snd]. exact Heval.
Qed.

Lemma counting_epoch_loop :
  forall todo (st : @loop_state (counting C0)),
    snd (st_dnn (snd (epoch_loop (C := counting C0) train valid batchSize m lr
                        nTrain nValid todo st))) =
    snd (st_dnn st) +
    (Vec.size (st_Eout (snd (epoch_loop (C := counting C0) train valid batchSize m lr
                               nTrain nValid todo st))) - Vec.size (st_Eout st)) *
    Z.of_nat (List.length (@Batches C0 batchSize nTrain)).
Proof.
  induction todo as [|todo IH]; intros st.
  - simpl. lia.
  - cbn [epoch_loop].
    pose proof (counting_epoch_body st) as Hc.
    destruct (epoch_body_Eout (C := counting C0) train valid batchSize m lr nTrain nValid st)
      as [HE _].
    destruct (epoch_body (C := counting C0) train valid batchSize m lr nTrain nValid st)
      as [[| |] s1]; cbn [snd] in Hc, HE.
    + rewrite IH. change (st_dnn (next_epoch s1)) with (st_dnn s1).
      change (st_Eout (next_epoch s1)) with (st_Eout s1).
      rewrite Hc, HE, size_push_back. lia.
    + cbn [snd]. rewrite Hc, HE, size_push_back. lia.
    + cbn [snd]. rewrite Hc, HE, size_push_back. lia.
Qed.

End CountFacts.

(** X9: let the model count the calls of its [backPropagate] (any model,
    paired with a counter that each call advances by one).  In every run of
    [dnn_train] the counter advances by the number of epochs entered (the
    length of the history at the end) times the number of mini-batches of the
    training set. *)
Theorem backPropagate_calls_per_run (C0 : Collaborators)
  (dnn : @DNN C0) (calls : Z) (train valid : @DataSet C0) (batchSize : Z)
  (m : ERROR_MEASURE) (out : list (@event (counting C0))) :
  snd (st_dnn (snd (dnn_train (C := counting C0) (dnn, calls) train valid batchSize m out))) =
  calls +
  Vec.size (st_Eout (snd (dnn_train (C := counting C0) (dnn, calls) train valid
                            batchSize m out))) *
  Z.of_nat (List.length (@Batches C0 batchSize (@DataSet_size C0 train))).
Proof.
  unfold dnn_train, run_epochs.
  pose proof (counting_epoch_loop C0 train valid batchSize m
                (effective_learning_rate (C := counting C0) (dnn, calls) batchSize)
                (@DataSet_size C0 train) (@DataSet_size C0 valid)
                (Z.to_nat (maxEpoch (@getConfig (counting C0) (dnn, calls))))
                (initial_state (C := counting C0) (dnn, calls) out)) as H.
  cbn [initial_state st_dnn st_Eout snd] in H.
  change (Vec.size []) with 0 in H. rewrite Z.sub_0_r in H.
  change (@DataSet_size (counting C0) train) with (@DataSet_size C0 train).
  change (@DataSet_size (counting C0) valid) with (@DataSet_size C0 valid).
  destruct (epoch_loop _ _ _ _ _ _ _ _ _) as [how st]. cbn [snd] in H.
  unfold show_summary.
  destruct how; [| |exact H];
    (destruct (Vec.back (st_Eout st)); cbn [snd st_dnn st_Eout add_out]; exact H).
Qed.

(** X12: when the options are not legal [main] exits at once and has done
    nothing.  When they are legal it trains the model and, if training ended
    with defined behaviour, saves the trained model as the last thing it
    does, under the third positional argument when that is not empty, else
    under the name derived from the training file; nothing is saved before
    that, and nothing at all when training ended undefined. *)
Theorem main_saves_once_at_the_end {C : Collaborators} (cmd : CmdParser) :
  (isOptionLegal cmd = false -> main cmd = UsageExit) /\
  (isOptionLegal cmd = true ->
   existsb is_save (st_out (snd (main_training cmd))) = false /\
   main cmd =
     match fst (main_training cmd) with
     | UNDEFINED => UndefinedBehaviour (st_out (snd (main_training cmd)))
     | _ =>
         Returned
           (st_out (snd (main_training cmd)) ++
            [EvSave (st_dnn (snd (main_training cmd)))
                    (if String.eqb (positional cmd 3) ""
                     then (substr (positional cmd 1)
                                  (SizeT.add (find_last_of (positional cmd 1) "/") 1)
                           ++ ".model")%string
                     else positional cmd 3)])
     end).
Proof.
  split; intros Hlegal.
  - unfold main. rewrite Hlegal. reflexivity.
  - split.
    + unfold main_training.
      match goal with
      | |- context [dnn_train ?d ?t ?v ?b ?m ?o] =>
          destruct (dnn_train_no_save d t v b m o) as [evs [Hout Hev]]
      end.
      rewrite Hout. simpl. exact Hev.
    + rewrite (main_unfold cmd Hlegal). unfold main_model_out.
      destruct (main_training cmd) as [[| |] st]; reflexivity.
Qed.

Lemma main_saves_once_at_the_end_witness :
  isOptionLegal (mkCmdParser false Sample.arguments (Sample.options "" "0")) = false /\
  main (C := Sample.proper) (mkCmdParser false Sample.arguments (Sample.options "" "0")) =
  UsageExit.
Proof.
  assert (H : isOptionLegal (mkCmdParser false Sample.arguments (Sample.options "" "0"))
              = false) by reflexivity.
  split; [exact H|].
  exact (proj1 (main_saves_once_at_the_end (C := Sample.proper)
                  (mkCmdParser false Sample.arguments (Sample.options "" "0"))) H).
Defined.

(** X15: inside an epoch all the mini-batch updates come first and only then
    the two evaluation passes, both on the model that the last update left.
    The state before the accuracy is computed has that model, [Ein] is its
    error count on the training set, the count appended to the history is its
    error count on the validation set, the epoch counter is unchanged, and the
    log has grown by the calls of the mini-batches ([getError], then
    [backPropagate], for each in order) followed by one [zeroOneError] per
    evaluation batch of the two sets. *)
Theorem updates_precede_evaluation {C : Collaborators}
  (train valid : DataSet) (batchSize : Z) (m : ERROR_MEASURE) (lr : F32.t)
  (nTrain : Z) (st : loop_state) :
  evaluate_epoch train valid batchSize m lr nTrain st =
  mkLoopState
    (fold_left (batch_update train m lr) (Batches batchSize nTrain) (st_dnn st))
    (fst (dnn_predict
            (fold_left (batch_update train m lr) (Batches batchSize nTrain) (st_dnn st))
            train m))
    (st_Eout st ++
       [fst (dnn_predict
               (fold_left (batch_update train m lr) (Batches batchSize nTrain) (st_dnn st))
               valid m)])
    (st_epoch st)
    (st_out st ++
     batch_events train m lr (st_dnn st) (Batches batchSize nTrain) ++
     repeat (EvZeroOneError m)
            (List.length (Batches 2048 (DataSet_size train)) +
             List.length (Batches 2048 (DataSet_size valid)))) /\
  List.length (batch_events train m lr (st_dnn st) (Batches batchSize nTrain)) =
    (2 * List.length (Batches batchSize nTrain))%nat.
Proof.
  split; [apply evaluate_epoch_spec|].
  generalize (st_dnn st). induction (Batches batchSize nTrain) as [|itr l IH]; intros d.
  - reflexivity.
  - cbn [batch_events List.length]. rewrite IH. lia.
Qed.
